(** * The database-access bridge of the ERP MCP server

    A shallow embedding of [mcp-server/src/stdio-server.ts] (the stdio
    JSON-RPC session handler, its tool dispatch and [handleCrudOperation])
    and of the sibling code paths of [mcp-server/src/index.ts] that build
    the same SQL, followed by the properties of the bridge.

    Conventions of the embedding.
    - A JavaScript value is a [jsval]; a number is an IEEE 754 double.  A
      JavaScript string is a [string] whose characters stand for UTF-16
      code units below 256.
    - A plain object is the list of its own enumerable properties in the
      order [Object.keys] and [Object.values] enumerate them (for the
      object of a JSON text: the keys that are array indices in ascending
      order, then the other keys in the order of the text).  Keys are
      pairwise distinct, as they are in every object built by [JSON.parse]
      or by an object literal, so a property read is the first match in
      the list.
    - The messages of the errors thrown by the engine are those of V8.
    - [prisma] (the database gateway) is not part of the sources: it is
      the method of the class [Gateway], a state transformer on an abstract
      store that answers each call with a value or a thrown error.  Chunks
      are handled one after the other.
    - [JSON.parse] of the input chunk is taken by its outcome: [None] when
      it throws a [SyntaxError], [Some v] when it returns [v]. *)

From Stdlib Require Import ZArith Ascii Floats.PrimFloat.
From Stdlib Require Uint63.
From stdpp Require Import base list strings pretty.

Set Warnings "-register-all".
Local Open Scope string_scope.
Local Open Scope list_scope.

(** ** JavaScript values *)

Inductive jsval : Type :=
| JUndefined
| JNull
| JBool (b : bool)
| JNum (x : float)
| JBigInt (z : Z)
| JStr (s : string)
| JDate (ms : Z)
| JArr (items : list jsval)
| JObj (props : list (string * jsval)).

(** What a [throw] carries.  [TypeError] and [SyntaxError] are raised by the
    engine; [Error] is [new Error(message)] and whatever the gateway
    rejects with. *)
Inductive js_error : Type :=
| TypeError (message : string)
| SyntaxError (message : string)
| Error (message : string).

Definition error_message (e : js_error) : string :=
  match e with
  | TypeError m | SyntaxError m | Error m => m
  end.

(** [completion A] is the outcome of evaluating an expression: a value or
    an abrupt completion by [throw]. *)
Inductive completion (A : Type) : Type :=
| Return (a : A)
| Throw (e : js_error).
Arguments Return {A} a.
Arguments Throw {A} e.

Definition bind {A B} (c : completion A) (k : A -> completion B) : completion B :=
  match c with
  | Return a => k a
  | Throw e => Throw e
  end.

Notation "'do' x <- c ; k" := (bind c (fun x => k))
  (at level 10, x name, c at level 100, k at level 200).

(** ToBoolean (ECMA-262 7.1.2). *)
Definition truthy (v : jsval) : bool :=
  match v with
  | JUndefined | JNull => false
  | JBool b => b
  | JNum x => negb (PrimFloat.is_zero x || PrimFloat.is_nan x)
  | JBigInt z => negb (Z.eqb z 0)
  | JStr s => negb (String.eqb s "")
  | JDate _ | JArr _ | JObj _ => true
  end.

(** [a || b] on values. *)
Definition js_or (a b : jsval) : jsval := if truthy a then a else b.

(** [v === "lit"] for a string literal. *)
Definition strict_eq_str (v : jsval) (lit : string) : bool :=
  match v with
  | JStr s => String.eqb s lit
  | _ => false
  end.

(** Property read on a list of own properties. *)
Fixpoint lookup_prop (k : string) (props : list (string * jsval)) : jsval :=
  match props with
  | [] => JUndefined
  | (k', v) :: rest => if String.eqb k k' then v else lookup_prop k rest
  end.

(** [v.k] for a property name [k] that is neither an array index nor
    ["length"] (every name read by the sources is such).  Reading a property
    of [undefined] or [null] throws; primitives, arrays and dates have no
    such own property. *)
Definition get (v : jsval) (k : string) : completion jsval :=
  match v with
  | JUndefined =>
      Throw (TypeError ("Cannot read properties of undefined (reading '" +:+ k +:+ "')"))
  | JNull =>
      Throw (TypeError ("Cannot read properties of null (reading '" +:+ k +:+ "')"))
  | JObj props => Return (lookup_prop k props)
  | _ => Return JUndefined
  end.

(** [const { name, arguments: args } = v]: a destructuring pattern needs
    an object-coercible value and then reads the two properties. *)
Definition destructure_name_arguments (v : jsval) : completion (jsval * jsval) :=
  match v with
  | JUndefined =>
      Throw (TypeError "Cannot destructure property 'name' of 'message.params' as it is undefined.")
  | JNull =>
      Throw (TypeError "Cannot destructure property 'name' of 'message.params' as it is null.")
  | JObj props => Return (lookup_prop "name" props, lookup_prop "arguments" props)
  | _ => Return (JUndefined, JUndefined)
  end.

(** Characters of a string as one-character strings. *)
Fixpoint chars (s : string) : list jsval :=
  match s with
  | EmptyString => []
  | String c rest => JStr (String c EmptyString) :: chars rest
  end.

(** Index-named properties of an array or of a string. *)
Definition indexed (l : list jsval) : list (string * jsval) :=
  imap (fun i v => (pretty i, v)) l.

(** The own enumerable string-keyed properties of [ToObject(v)], in
    enumeration order; [None] where [ToObject] throws. *)
Definition ownEntries (v : jsval) : option (list (string * jsval)) :=
  match v with
  | JUndefined | JNull => None
  | JObj props => Some props
  | JArr items => Some (indexed items)
  | JStr s => Some (indexed (chars s))
  | JBool _ | JNum _ | JBigInt _ | JDate _ => Some []
  end.

Definition Object_keys (v : jsval) : completion (list string) :=
  match ownEntries v with
  | Some props => Return (props.*1)
  | None => Throw (TypeError "Cannot convert undefined or null to object")
  end.

Definition Object_values (v : jsval) : completion (list jsval) :=
  match ownEntries v with
  | Some props => Return (props.*2)
  | None => Throw (TypeError "Cannot convert undefined or null to object")
  end.

(** Object spread [{...v}]: [undefined] and [null] contribute nothing. *)
Definition spread (v : jsval) : list (string * jsval) :=
  match ownEntries v with
  | Some props => props
  | None => []
  end.

(** A later property of an object literal: it overwrites in place a key
    already there and is appended otherwise. *)
Fixpoint set_prop (k : string) (v : jsval) (props : list (string * jsval))
  : list (string * jsval) :=
  match props with
  | [] => [(k, v)]
  | (k', v') :: rest =>
      if String.eqb k k' then (k', v) :: rest else (k', v') :: set_prop k v rest
  end.

(** [String.prototype.toLowerCase] on code units below 256. *)
Definition lower_char (c : ascii) : ascii :=
  let n := nat_of_ascii c in
  if (65 <=? n)%nat && (n <=? 90)%nat then ascii_of_nat (n + 32)
  else if (192 <=? n)%nat && (n <=? 222)%nat && negb (n =? 215)%nat
       then ascii_of_nat (n + 32)
  else c.

Fixpoint toLowerCase (s : string) : string :=
  match s with
  | EmptyString => EmptyString
  | String c rest => String (lower_char c) (toLowerCase rest)
  end.

(** [Array.prototype.join]. *)
Definition join (sep : string) (parts : list string) : string :=
  String.concat sep parts.

(** ** The host environment

    [Number::toString], [Date.prototype.toString],
    [Date.prototype.toISOString] and the text [JSON.stringify] prints are
    the engine's; the code only ever concatenates, forwards or re-parses
    their results, so they are left open.  [Date_now n] is the time value
    of the [n]-th [new Date()] evaluated while one request is handled. *)

Class Host : Type := {
  Number_toString : float -> string;
  Date_toString : Z -> string;
  Date_toISOString : Z -> string;
  JSON_text : jsval -> string;
  Date_now : nat -> Z
}.

Section Engine.

Context `{Host}.

(** ToString (ECMA-262 7.1.17), as applied by a template literal. *)
Fixpoint ToString (v : jsval) : string :=
  match v with
  | JUndefined => "undefined"
  | JNull => "null"
  | JBool true => "true"
  | JBool false => "false"
  | JNum x => Number_toString x
  | JBigInt z => pretty z
  | JStr s => s
  | JDate ms => Date_toString ms
  | JArr items =>
      join "," (map (fun item => match item with
                                 | JUndefined | JNull => ""
                                 | _ => ToString item
                                 end) items)
  | JObj _ => "[object Object]"
  end.

(** [operation.toLowerCase()]: only a string has the method. *)
Definition call_toLowerCase (v : jsval) : completion string :=
  match v with
  | JStr s => Return (toLowerCase s)
  | JUndefined =>
      Throw (TypeError "Cannot read properties of undefined (reading 'toLowerCase')")
  | JNull =>
      Throw (TypeError "Cannot read properties of null (reading 'toLowerCase')")
  | _ => Throw (TypeError "operation.toLowerCase is not a function")
  end.

(** ** The SQL fragments

    [eqTerms offset keys] is
    [keys.map((key, i) => `${key} = $${offset + i + 1}`)]: the source writes
    it with [offset] the literal nothing (select, delete, the SET clause:
    [i + 1]) and with [Object.keys(data).length] (the WHERE clause of
    update). *)
Definition eqTerms (offset : nat) (keys : list string) : list string :=
  imap (fun i key => key +:+ " = $" +:+ pretty (offset + i + 1)%nat) keys.

(** [Object.keys(data).map((_, i) => `$${i + 1}`)] *)
Definition placeholders (keys : list string) : list string :=
  imap (fun i _ => "$" +:+ pretty (i + 1)%nat) keys.

(** [where ? `WHERE ${Object.keys(where).map(...).join(" AND ")}` : ""] *)
Definition whereClause (offset : nat) (where_ : jsval) : completion string :=
  if truthy where_
  then do keys <- Object_keys where_;
       Return ("WHERE " +:+ join " AND " (eqTerms offset keys))
  else Return "".

(** [where ? Object.values(where) : []] *)
Definition whereValues (where_ : jsval) : completion (list jsval) :=
  if truthy where_ then Object_values where_ else Return [].

(** ** The database gateway's entry points used by the bridge *)

Inductive gateway_call : Type :=
| queryRawUnsafe (query : jsval) (values : list jsval)
| subject_findMany (arg : jsval)
| subject_create (arg : jsval)
| subject_updateMany (arg : jsval)
| subject_deleteMany (arg : jsval).

(** ** [handleCrudOperation]

    Every branch of the function is [return await prisma. ...]: it either
    throws while it builds the call or hands exactly one call to the gateway
    and answers with the gateway's answer.  [crudCall] is the first half. *)
Definition crudCall (operation table data where_ : jsval)
  : completion gateway_call :=
  do op <- call_toLowerCase operation;
  if String.eqb op "select" then
    if strict_eq_str table "subjects" then
      Return (subject_findMany
                (if truthy where_ then JObj [("where", where_)] else JUndefined))
    else
      do selectWhereClause <- whereClause 0 where_;
      do selectValues <- whereValues where_;
      Return (queryRawUnsafe
                (JStr ("SELECT * FROM " +:+ ToString table +:+ " " +:+ selectWhereClause))
                selectValues)
  else if String.eqb op "insert" then
    if strict_eq_str table "subjects" then
      do given_created <- get data "createdAt";
      let createdAt := if truthy given_created then given_created else JDate (Date_now 0%nat) in
      let reads := if truthy given_created then 0%nat else 1%nat in
      do given_updated <- get data "updatedAt";
      let updatedAt := if truthy given_updated then given_updated else JDate (Date_now reads) in
      Return (subject_create
                (JObj [("data",
                        JObj (set_prop "updatedAt" updatedAt
                                (set_prop "createdAt" createdAt (spread data))))]))
    else
      do keys <- Object_keys data;
      let insertColumns := join ", " keys in
      let insertPlaceholders := join ", " (placeholders keys) in
      do insertValues <- Object_values data;
      Return (queryRawUnsafe
                (JStr ("INSERT INTO " +:+ ToString table +:+ " (" +:+ insertColumns
                       +:+ ") VALUES (" +:+ insertPlaceholders +:+ ") RETURNING *"))
                insertValues)
  else if String.eqb op "update" then
    if strict_eq_str table "subjects" then
      Return (subject_updateMany
                (JObj [("where", where_);
                       ("data", JObj (set_prop "updatedAt" (JDate (Date_now 0%nat))
                                        (spread data)))]))
    else
      do keys <- Object_keys data;
      let updateSetClause := join ", " (eqTerms 0 keys) in
      do updateWhereClause <- whereClause (length keys) where_;
      do dataValues <- Object_values data;
      do restValues <- whereValues where_;
      Return (queryRawUnsafe
                (JStr ("UPDATE " +:+ ToString table +:+ " SET " +:+ updateSetClause
                       +:+ " " +:+ updateWhereClause +:+ " RETURNING *"))
                (dataValues ++ restValues))
  else if String.eqb op "delete" then
    if strict_eq_str table "subjects" then
      Return (subject_deleteMany (JObj [("where", where_)]))
    else
      do deleteWhereClause <- whereClause 0 where_;
      do deleteValues <- whereValues where_;
      Return (queryRawUnsafe
                (JStr ("DELETE FROM " +:+ ToString table +:+ " " +:+ deleteWhereClause
                       +:+ " RETURNING *"))
                deleteValues)
  else Throw (Error ("Unknown operation: " +:+ ToString operation)).

(** ** The result serializer

    [JSON.parse(JSON.stringify(result, (key, value) =>
       typeof value === "bigint" ? value.toString() : value))].

    [jsonValue v] is what the round trip leaves of [v] inside a container;
    [JUndefined] marks a value that [JSON.stringify] leaves out.  A date
    reaches the replacer already converted by [toJSON]; a [JDate] carries a
    valid time value.  A finite number is printed in its shortest
    round-tripping form, so it parses back to itself (negative zero prints
    as [0]); [NaN] and the infinities print as [null]. *)
Definition is_defined (v : jsval) : bool :=
  match v with
  | JUndefined => false
  | _ => true
  end.

(** An array keeps a slot for a left-out value ([null]); an object drops
    the property. *)
Definition array_item (w : jsval) : jsval := if is_defined w then w else JNull.

Definition object_prop (k : string) (w : jsval) : option (string * jsval) :=
  if is_defined w then Some (k, w) else None.

Fixpoint jsonValue (v : jsval) : jsval :=
  match v with
  | JUndefined => JUndefined
  | JNull => JNull
  | JBool b => JBool b
  | JNum x =>
      if PrimFloat.is_finite x
      then if PrimFloat.is_zero x then JNum 0 else JNum x
      else JNull
  | JBigInt z => JStr (pretty z)
  | JStr s => JStr s
  | JDate ms => JStr (Date_toISOString ms)
  | JArr items =>
      JArr (map (fun item => array_item (jsonValue item)) items)
  | JObj props =>
      JObj (omap (fun '(k, item) => object_prop k (jsonValue item)) props)
  end.

Definition serializeResult (result : jsval) : completion jsval :=
  match jsonValue result with
  | JUndefined => Throw (SyntaxError "Unexpected token u in JSON at position 0")
  | w => Return w
  end.

(** [JSON.stringify(result, null, 2)] has no replacer: it throws on the
    first bigint it meets.  The text it produces otherwise is the engine's,
    [JSON_text]. *)
Fixpoint has_bigint (v : jsval) : bool :=
  match v with
  | JBigInt _ => true
  | JArr items => existsb has_bigint items
  | JObj props => existsb (fun '(_, item) => has_bigint item) props
  | _ => false
  end.

Definition JSON_stringify_pretty (v : jsval) : completion jsval :=
  if has_bigint v then Throw (TypeError "Do not know how to serialize a BigInt")
  else match v with
       | JUndefined => Return JUndefined
       | _ => Return (JStr (JSON_text v))
       end.

End Engine.

(** ** The session handler

    The handler is an [async] function over the shared [prisma] client:
    a computation reads and updates the store and ends with a value or a
    throw. *)

Class Gateway (store : Type) : Type :=
  prisma : gateway_call -> store -> completion jsval * store.

Definition M (store A : Type) : Type := store -> completion A * store.

Definition ret {store A} (a : A) : M store A := fun st => (Return a, st).

Definition lift {store A} (c : completion A) : M store A := fun st => (c, st).

Definition bindM {store A B} (m : M store A) (k : A -> M store B) : M store B :=
  fun st =>
    match m st with
    | (Return a, st') => k a st'
    | (Throw e, st') => (Throw e, st')
    end.

(** [try { m } catch (error) { handler }] *)
Definition try_catch {store A} (m : M store A) (handler : js_error -> M store A)
  : M store A :=
  fun st =>
    match m st with
    | (Return a, st') => (Return a, st')
    | (Throw e, st') => handler e st'
    end.

Notation "'let*' x := m 'in' k" := (bindM m (fun x => k))
  (at level 10, x name, m at level 100, k at level 200).

(** The statements of [get_schema] and [list_tables], character for
    character. *)
Definition schema_columns_sql : string :=
  "
                    SELECT column_name, data_type, is_nullable, column_default
                    FROM information_schema.columns
                    WHERE table_name = $1 AND table_schema = 'public'
                    ORDER BY ordinal_position
                  ".

Definition schema_tables_sql : string :=
  "
                    SELECT table_name
                    FROM information_schema.tables
                    WHERE table_schema = 'public' AND table_type = 'BASE TABLE'
                    ORDER BY table_name
                  ".

Definition list_tables_sql : string :=
  "
                  SELECT table_name
                  FROM information_schema.tables
                  WHERE table_schema = 'public' AND table_type = 'BASE TABLE'
                  ORDER BY table_name
                ".

Definition sendResponse (id result : jsval) : jsval :=
  JObj [("jsonrpc", JStr "2.0"); ("id", id); ("result", result)].

Definition sendError (id : jsval) (code : float) (message : string) : jsval :=
  JObj [("jsonrpc", JStr "2.0"); ("id", id);
        ("error", JObj [("code", JNum code); ("message", JStr message)])].

(** What [JSON.stringify(response)] puts on the wire: a property whose
    value is [undefined] is left out. *)
Definition wire_props (response : jsval) : list (string * jsval) :=
  match response with
  | JObj props => List.filter (fun kv => is_defined kv.2) props
  | _ => []
  end.

Definition initializeResult : jsval :=
  JObj [("protocolVersion", JStr "2024-11-05");
        ("capabilities", JObj [("tools", JObj [("listChanged", JBool false)])]);
        ("serverInfo", JObj [("name", JStr "erp-mcp-server");
                             ("version", JStr "1.0.0")])].

Definition toolsListResult : jsval :=
  JObj [("tools", JArr [
    JObj [("name", JStr "query_database");
          ("description", JStr "Execute raw SQL queries on the ERP database");
          ("inputSchema", JObj [
             ("type", JStr "object");
             ("properties", JObj [
                ("query", JObj [("type", JStr "string");
                                ("description", JStr "SQL query to execute")]);
                ("params", JObj [("type", JStr "array");
                                 ("items", JObj [("type", JStr "string")]);
                                 ("description", JStr "Query parameters");
                                 ("default", JArr [])])]);
             ("required", JArr [JStr "query"]);
             ("additionalProperties", JBool false)])];
    JObj [("name", JStr "execute_crud");
          ("description",
           JStr "Perform CRUD operations (SELECT, INSERT, UPDATE, DELETE) on database tables");
          ("inputSchema", JObj [
             ("type", JStr "object");
             ("properties", JObj [
                ("operation", JObj [("type", JStr "string");
                                    ("enum", JArr [JStr "select"; JStr "insert";
                                                   JStr "update"; JStr "delete"]);
                                    ("description", JStr "CRUD operation type")]);
                ("table", JObj [("type", JStr "string");
                                ("description", JStr "Database table name")]);
                ("data", JObj [("type", JStr "object");
                               ("description", JStr "Data for INSERT/UPDATE operations")]);
                ("where", JObj [("type", JStr "object");
                                ("description",
                                 JStr "WHERE conditions for SELECT/UPDATE/DELETE operations")])]);
             ("required", JArr [JStr "operation"; JStr "table"])])];
    JObj [("name", JStr "get_schema");
          ("description", JStr "Get database schema information");
          ("inputSchema", JObj [
             ("type", JStr "object");
             ("properties", JObj [
                ("table", JObj [("type", JStr "string");
                                ("description", JStr "Specific table name (optional)")])])])];
    JObj [("name", JStr "list_tables");
          ("description", JStr "List all available database tables");
          ("inputSchema", JObj [("type", JStr "object");
                                ("properties", JObj [])])]])].

(** Spreading [...(args.params || [])] into the argument list iterates the
    value: an array yields its items, a string its characters, anything
    else is not iterable. *)
Definition spread_iterable (v : jsval) : completion (list jsval) :=
  match v with
  | JArr items => Return items
  | JStr s => Return (chars s)
  | _ => Throw (TypeError "Spread syntax requires ...iterable[Symbol.iterator] to be a function")
  end.

Section Session.

Context `{Host} {store : Type} `{Gateway store}.

Definition handleCrudOperation (operation table data where_ : jsval) : M store jsval :=
  let* call := lift (crudCall operation table data where_) in
  prisma call.

(** The [switch (name)] of [tools/call], up to the value of [result]. *)
Definition callTool (name args : jsval) : M store jsval :=
  if strict_eq_str name "query_database" then
    let* query := lift (get args "query") in
    let* params := lift (get args "params") in
    let* values := lift (spread_iterable (js_or params (JArr []))) in
    let* result := prisma (queryRawUnsafe query values) in
    lift (serializeResult result)
  else if strict_eq_str name "execute_crud" then
    let* operation := lift (get args "operation") in
    let* table := lift (get args "table") in
    let* data := lift (get args "data") in
    let* where_ := lift (get args "where") in
    handleCrudOperation operation table data where_
  else if strict_eq_str name "get_schema" then
    let* table := lift (get args "table") in
    if truthy table
    then prisma (queryRawUnsafe (JStr schema_columns_sql) [table])
    else prisma (queryRawUnsafe (JStr schema_tables_sql) [])
  else if strict_eq_str name "list_tables" then
    prisma (queryRawUnsafe (JStr list_tables_sql) [])
  else lift (Throw (Error ("Unknown tool: " +:+ ToString name))).

(** [case "tools/call"]: the destructuring of [message.params] is outside
    the inner [try]; everything after it is inside. *)
Definition toolsCall (message : jsval) : M store (list jsval) :=
  let* params := lift (get message "params") in
  let* name_args := lift (destructure_name_arguments params) in
  let* id := lift (get message "id") in
  try_catch
    (let* result := callTool name_args.1 name_args.2 in
     let* text := lift (JSON_stringify_pretty result) in
     ret [sendResponse id
            (JObj [("content", JArr [JObj [("type", JStr "text"); ("text", text)]])])])
    (fun error =>
       ret [sendError id (-32603)
              (if String.eqb (error_message error) "" then "Internal error"
               else error_message error)]).

(** The body of the outer [try], after [JSON.parse]: the responses it
    writes to [stdout]. *)
Definition handleMessage (message : jsval) : M store (list jsval) :=
  let* jsonrpc := lift (get message "jsonrpc") in
  if negb (strict_eq_str jsonrpc "2.0") then
    let* id := lift (get message "id") in
    ret [sendError id (-32600) "Invalid Request"]
  else
    let* method := lift (get message "method") in
    if strict_eq_str method "initialize" then
      let* id := lift (get message "id") in
      ret [sendResponse id initializeResult]
    else if strict_eq_str method "tools/list" then
      let* id := lift (get message "id") in
      ret [sendResponse id toolsListResult]
    else if strict_eq_str method "tools/call" then
      toolsCall message
    else
      let* id := lift (get message "id") in
      ret [sendError id (-32601) "Method not found"].

(** The [stdin.on("data", ...)] listener.  [parsed] is the outcome of
    [JSON.parse(data.toString().trim())]; the outer [catch] answers every
    throw of the body as a parse error. *)
Definition onData (parsed : option jsval) (st : store) : list jsval * store :=
  match parsed with
  | None => ([sendError JNull (-32700) "Parse error"], st)
  | Some message =>
      match handleMessage message st with
      | (Return written, st') => (written, st')
      | (Throw _, st') => ([sendError JNull (-32700) "Parse error"], st')
      end
  end.

End Session.

(** ** The REST endpoint [/api/mcp/execute]

    The endpoint of [index.ts] builds its statements on its own, not
    through [handleCrudOperation]; the blocks below are its insert
    fallback and its update and delete cases, kept for comparison. *)

(** The double quote, as a one-character string. *)
Definition dquote : string := String (ascii_of_nat 34) EmptyString.

(** The [else] branch of its insert: it adds the two timestamp columns,
    filled by [NOW()], when the data has none. *)
Definition executeInsertFallback (tableName : string) (data : jsval)
  : completion gateway_call :=
  do keys <- Object_keys data;
  let columns := join ", " keys in
  let marks := join ", " (placeholders keys) in
  do values <- Object_values data;
  do createdAt <- get data "createdAt";
  let columns1 :=
    if truthy createdAt then columns
    else columns +:+ ", " +:+ dquote +:+ "createdAt" +:+ dquote in
  let marks1 := if truthy createdAt then marks else marks +:+ ", NOW()" in
  do updatedAt <- get data "updatedAt";
  let columns2 :=
    if truthy updatedAt then columns1
    else columns1 +:+ ", " +:+ dquote +:+ "updatedAt" +:+ dquote in
  let marks2 := if truthy updatedAt then marks1 else marks1 +:+ ", NOW()" in
  Return (queryRawUnsafe
            (JStr ("INSERT INTO " +:+ tableName +:+ " (" +:+ columns2
                   +:+ ") VALUES (" +:+ marks2 +:+ ") RETURNING *"))
            values).

(** The update and delete cases of the same endpoint.  They answer 400
    when [where] is falsy, which the empty object is not. *)
Inductive execute_step : Type :=
| Respond400 (error : string)
| Execute (call : gateway_call).

(** [keys.indexOf(key)] *)
Fixpoint indexOf (key : string) (keys : list string) : Z :=
  match keys with
  | [] => (-1)%Z
  | first :: rest =>
      if String.eqb first key then 0%Z
      else match indexOf key rest with
           | Zneg _ => (-1)%Z
           | found => (found + 1)%Z
           end
  end.

Definition executeUpdate (tableName : string) (data where_ : jsval)
  : completion execute_step :=
  if negb (truthy data) || negb (truthy where_) then
    Return (Respond400 "Data and where parameters are required for update operation")
  else
    do dataKeys <- Object_keys data;
    let setClause :=
      join ", " (map (fun key => key +:+ " = $" +:+ pretty (indexOf key dataKeys + 1)%Z)
                   dataKeys) in
    do whereKeys <- Object_keys where_;
    let whereText :=
      join " AND "
        (map (fun key => key +:+ " = $"
                         +:+ pretty (Z.of_nat (length dataKeys)
                                     + indexOf key whereKeys + 1)%Z)
           whereKeys) in
    do dataValues <- Object_values data;
    do whereVals <- Object_values where_;
    Return (Execute
              (queryRawUnsafe
                 (JStr ("UPDATE " +:+ tableName +:+ " SET " +:+ setClause
                        +:+ " WHERE " +:+ whereText +:+ " RETURNING *"))
                 (dataValues ++ whereVals))).

Definition executeDelete (tableName : string) (where_ : jsval)
  : completion execute_step :=
  if negb (truthy where_) then
    Return (Respond400 "Where parameter is required for delete operation")
  else
    do whereKeys <- Object_keys where_;
    let deleteWhereClause :=
      join " AND "
        (map (fun key => key +:+ " = $" +:+ pretty (indexOf key whereKeys + 1)%Z)
           whereKeys) in
    do deleteValues <- Object_values where_;
    Return (Execute
              (queryRawUnsafe
                 (JStr ("DELETE FROM " +:+ tableName +:+ " WHERE " +:+ deleteWhereClause
                        +:+ " RETURNING *"))
                 deleteValues)).

(** ** A lexer for the plain statements

    [sql_tokens] splits a statement into words and single-quoted literals.
    It only accepts texts on which white space is certainly insignificant
    to the store: no double quote, dollar sign, backslash, minus sign or
    slash (quoted identifiers, dollar quoting, escapes, comments), literals
    set off by white space on both sides and never two in a row. *)

Inductive sql_token : Type :=
| Word (text : string)
| Literal (text : string).

Inductive lex_mode : Type :=
| Between (after_literal : bool)
| InWord (text : string)
| InLiteral (text : string).

Definition is_space (c : ascii) : bool :=
  let n := nat_of_ascii c in
  (n =? 32)%nat || (n =? 9)%nat || (n =? 10)%nat || (n =? 12)%nat || (n =? 13)%nat.

Definition is_quote (c : ascii) : bool := (nat_of_ascii c =? 39)%nat.

Definition is_excluded (c : ascii) : bool :=
  let n := nat_of_ascii c in
  (n =? 34)%nat || (n =? 36)%nat || (n =? 92)%nat || (n =? 45)%nat || (n =? 47)%nat.

Fixpoint sql_lex (mode : lex_mode) (seen : list sql_token) (s : string)
  : option (list sql_token) :=
  match s with
  | EmptyString =>
      match mode with
      | Between _ => Some (reverse seen)
      | InWord w => Some (reverse (Word w :: seen))
      | InLiteral _ => None
      end
  | String c rest =>
      match mode with
      | InLiteral l =>
          if is_quote c then sql_lex (Between true) (Literal l :: seen) rest
          else if is_excluded c then None
          else sql_lex (InLiteral (l +:+ String c EmptyString)) seen rest
      | Between after_literal =>
          if is_space c then sql_lex (Between false) seen rest
          else if after_literal then None
          else if is_quote c then
            match seen with
            | Literal _ :: _ => None
            | _ => sql_lex (InLiteral EmptyString) seen rest
            end
          else if is_excluded c then None
          else sql_lex (InWord (String c EmptyString)) seen rest
      | InWord w =>
          if is_space c then sql_lex (Between false) (Word w :: seen) rest
          else if is_quote c || is_excluded c then None
          else sql_lex (InWord (w +:+ String c EmptyString)) seen rest
      end
  end.

Definition sql_tokens (s : string) : option (list sql_token) :=
  sql_lex (Between false) [] s.

(** A gateway is indifferent to layout when two accepted texts with the
    same tokens, given the same values, are answered alike in every state
    of the store. *)
Definition layout_indifferent {store : Type} (G : Gateway store) : Prop :=
  forall (q1 q2 : string) (tokens : list sql_token) (values : list jsval) (st : store),
    sql_tokens q1 = Some tokens ->
    sql_tokens q2 = Some tokens ->
    G (queryRawUnsafe (JStr q1) values) st = G (queryRawUnsafe (JStr q2) values) st.

(** ** A small store to run the handler on

    The store is a catalogue of tables, each with its schema, name and
    type; the gateway understands the table listing and nothing else. *)

#[global] Instance sql_token_eq_dec : EqDecision sql_token.
Proof. solve_decision. Defined.

Record table_entry : Type := {
  entry_schema : string;
  entry_name : string;
  entry_type : string
}.

Fixpoint insert_sorted (name : string) (names : list string) : list string :=
  match names with
  | [] => [name]
  | first :: rest =>
      if String.leb name first then name :: names
      else first :: insert_sorted name rest
  end.

Definition base_table_names (catalogue : list table_entry) : list string :=
  foldr insert_sorted []
    (entry_name <$>
       List.filter (fun e => String.eqb (entry_schema e) "public"
                             && String.eqb (entry_type e) "BASE TABLE") catalogue).

Definition listing_tokens : list sql_token :=
  [Word "SELECT"; Word "table_name"; Word "FROM"; Word "information_schema.tables";
   Word "WHERE"; Word "table_schema"; Word "="; Literal "public"; Word "AND";
   Word "table_type"; Word "="; Literal "BASE TABLE";
   Word "ORDER"; Word "BY"; Word "table_name"].

Definition catalogue_gateway : Gateway (list table_entry) :=
  fun call catalogue =>
    match call with
    | queryRawUnsafe (JStr q) _ =>
        match sql_tokens q with
        | Some tokens =>
            if decide (tokens = listing_tokens)
            then (Return (JArr ((fun name => JObj [("table_name", JStr name)])
                                  <$> base_table_names catalogue)),
                  catalogue)
            else (Throw (Error "statement not supported"), catalogue)
        | None => (Throw (Error "statement not supported"), catalogue)
        end
    | _ => (Throw (Error "statement not supported"), catalogue)
    end.

Definition sample_catalogue : list table_entry :=
  [ {| entry_schema := "public"; entry_name := "students"; entry_type := "BASE TABLE" |};
    {| entry_schema := "public"; entry_name := "classes"; entry_type := "BASE TABLE" |};
    {| entry_schema := "public"; entry_name := "v_marks"; entry_type := "VIEW" |};
    {| entry_schema := "pg_catalog"; entry_name := "pg_class"; entry_type := "BASE TABLE" |} ].

(** ** Concrete environments

    A host, two gateways and a catalogue on which the definitions run. *)

(** A host on which the definitions can be run. *)
Definition sample_host : Host := {|
  Number_toString := fun _ => "0";
  Date_toString := fun ms => "Date(" +:+ pretty ms +:+ ")";
  Date_toISOString := fun ms => "T" +:+ pretty ms +:+ "Z";
  JSON_text := fun _ => "[]";
  Date_now := fun n => (1700000000000 + Z.of_nat n)%Z
|}.

(** A gateway that accepts every call, answers with no rows and keeps the
    calls it received, oldest first. *)
Definition recording_gateway : Gateway (list gateway_call) :=
  fun call log => (Return (JArr []), log ++ [call]).

(** ** Vocabulary of the statements below *)

(** A decimal text: one or more decimal digits, after an optional minus
    sign. *)
Definition is_digit (c : ascii) : bool :=
  (48 <=? nat_of_ascii c)%nat && (nat_of_ascii c <=? 57)%nat.

Fixpoint all_digits (s : string) : bool :=
  match s with
  | EmptyString => true
  | String c rest => is_digit c && all_digits rest
  end.

Definition is_decimal_text (s : string) : bool :=
  match s with
  | String "-" rest => negb (String.eqb rest "") && all_digits rest
  | _ => negb (String.eqb s "") && all_digits s
  end.

(** A row of the result comes back as a row. *)
Definition serializeRow `{Host} (props : list (string * jsval)) : list (string * jsval) :=
  omap (fun '(k, item) => object_prop k (jsonValue item)) props.


(** The request of a [tools/call]. *)
Definition toolsCallRequest (id name args : jsval) : jsval :=
  JObj [("jsonrpc", JStr "2.0"); ("id", id); ("method", JStr "tools/call");
        ("params", JObj [("name", name); ("arguments", args)])].


(** [carries field response]: the field is on the wire. *)
Definition carries (field : string) (response : jsval) : bool :=
  existsb (fun kv => String.eqb field kv.1) (wire_props response).

(** The [id] property of a response object. *)
Definition response_id (response : jsval) : jsval :=
  match response with
  | JObj props => lookup_prop "id" props
  | _ => JUndefined
  end.

Definition well_formed_response (response : jsval) : Prop :=
  xorb (carries "result" response) (carries "error" response) = true.

(** ** Further environments *)

(** A gateway whose every answer is one row with a 64-bit count. *)
Definition counting_gateway : Gateway unit :=
  fun _ st => (Return (JArr [JObj [("count", JBigInt 42)]]), st).

(** A gateway that rejects every call. *)
Definition failing_gateway : Gateway unit :=
  fun _ st => (Throw (Error "connection refused"), st).

(** ** Further vocabulary *)

(** An envelope that the stdio handler routes to [tools/call]. *)
Definition is_tools_call (props : list (string * jsval)) : bool :=
  strict_eq_str (lookup_prop "jsonrpc" props) "2.0"
  && strict_eq_str (lookup_prop "method" props) "tools/call".

(** A call to the typed client (the fast path), as opposed to a raw
    statement. *)
Definition is_typed_call (call : gateway_call) : bool :=
  match call with
  | queryRawUnsafe _ _ => false
  | _ => true
  end.

(** The four operations of [handleCrudOperation]. *)
Definition crud_operations : list string := ["select"; "insert"; "update"; "delete"].

(** ** The HTTP endpoints of [index.ts]

    A handler answers with a status and a JSON body: [res.json(b)] is the
    status 200, [res.status(n).json(b)] the status [n].  Every handler
    below is [try { ... } catch (error) { res.status(500).json(...) }]. *)

Record http_reply : Type := { status : nat; body : jsval }.

Definition res_json (b : jsval) : http_reply := {| status := 200; body := b |}.

Definition res_status_json (n : nat) (b : jsval) : http_reply :=
  {| status := n; body := b |}.

(** [const { first, ... } = source]: the pattern needs an object-coercible
    value. *)
Definition destructurable (source first : string) (v : jsval) : completion jsval :=
  match v with
  | JUndefined =>
      Throw (TypeError ("Cannot destructure property '" +:+ first +:+ "' of '"
                        +:+ source +:+ "' as it is undefined."))
  | JNull =>
      Throw (TypeError ("Cannot destructure property '" +:+ first +:+ "' of '"
                        +:+ source +:+ "' as it is null."))
  | _ => Return v
  end.

(** A default in a destructuring pattern ([params = []]) applies to
    [undefined] only. *)
Definition default_to (v fallback : jsval) : jsval :=
  match v with
  | JUndefined => fallback
  | _ => v
  end.

(** [error.message || fallback] *)
Definition message_or (e : js_error) (fallback : string) : string :=
  if String.eqb (error_message e) "" then fallback else error_message e.

(** The number of a length. *)
Definition Number_of_nat (n : nat) : float :=
  PrimFloat.of_uint63 (Uint63.of_Z (Z.of_nat n)).

(** [v.length] *)
Definition get_length (v : jsval) : completion jsval :=
  match v with
  | JUndefined =>
      Throw (TypeError "Cannot read properties of undefined (reading 'length')")
  | JNull => Throw (TypeError "Cannot read properties of null (reading 'length')")
  | JArr items => Return (JNum (Number_of_nat (length items)))
  | JStr s => Return (JNum (Number_of_nat (String.length s)))
  | JObj props => Return (lookup_prop "length" props)
  | _ => Return JUndefined
  end.

(** [v.k] on a value that is neither [undefined] nor [null]. *)
Definition read (v : jsval) (k : string) : jsval :=
  match v with
  | JObj props => lookup_prop k props
  | _ => JUndefined
  end.

(** [receiver.toLowerCase()] *)
Definition call_toLowerCase_of (receiver : string) (v : jsval) : completion string :=
  match v with
  | JStr s => Return (toLowerCase s)
  | JUndefined =>
      Throw (TypeError "Cannot read properties of undefined (reading 'toLowerCase')")
  | JNull =>
      Throw (TypeError "Cannot read properties of null (reading 'toLowerCase')")
  | _ => Throw (TypeError (receiver +:+ ".toLowerCase is not a function"))
  end.

(** [String.prototype.toUpperCase] on one code unit below 256.  The
    capital of sharp s is two letters; the capitals of the micro sign and
    of y with diaeresis lie above 255 and have no counterpart here. *)
Definition upper_char (c : ascii) : option string :=
  let n := nat_of_ascii c in
  if (97 <=? n)%nat && (n <=? 122)%nat then Some (String (ascii_of_nat (n - 32)) EmptyString)
  else if (224 <=? n)%nat && (n <=? 254)%nat && negb (n =? 247)%nat
       then Some (String (ascii_of_nat (n - 32)) EmptyString)
  else if (n =? 223)%nat then Some "SS"
  else if (n =? 181)%nat || (n =? 255)%nat then None
  else Some (String c EmptyString).

(** [s.replace(/s$/, "")] *)
Fixpoint replace_final_s (s : string) : string :=
  match s with
  | EmptyString => EmptyString
  | String c EmptyString => if (nat_of_ascii c =? 115)%nat then EmptyString else s
  | String c rest => String c (replace_final_s rest)
  end.

(** [tableName.charAt(0).toUpperCase() + tableName.slice(1).replace(/s$/, "")];
    [None] stands for a name that starts with a capital above 255. *)
Definition modelName (tableName : string) : option string :=
  match tableName with
  | EmptyString => Some EmptyString
  | String c rest =>
      match upper_char c with
      | Some capital => Some (capital +:+ replace_final_s rest)
      | None => None
      end
  end.

(** [modelName === "Subject"] *)
Definition is_Subject (tableName : string) : bool :=
  match modelName tableName with
  | Some name => String.eqb name "Subject"
  | None => false
  end.

Section Endpoints.

Context `{Host} {store : Type} `{Gateway store}.

(** [new Date().toISOString()], at the [n]-th reading of the clock. *)
Definition timestamp (n : nat) : jsval := JStr (Date_toISOString (Date_now n)).

(** The outer [try]/[catch] of a handler: a throw of the body becomes the
    reply [on_error] builds. *)
Definition answering (body_ : M store http_reply) (on_error : js_error -> http_reply)
  : store -> http_reply * store :=
  fun st =>
    match body_ st with
    | (Return reply, st') => (reply, st')
    | (Throw e, st') => (on_error e, st')
    end.

(** [app.post("/api/mcp/query", ...)] *)
Definition mcpQuery (reqBody : jsval) : store -> http_reply * store :=
  answering
    (let* source := lift (destructurable "req.body" "query" reqBody) in
     let* query := lift (get source "query") in
     let* given := lift (get source "params") in
     let params := default_to given (JArr []) in
     if negb (truthy query) then
       ret (res_status_json 400
              (JObj [("success", JBool false);
                     ("error", JStr "Query parameter is required")]))
     else
       let* values := lift (spread_iterable params) in
       let* result := prisma (queryRawUnsafe query values) in
       let* serializedResult := lift (serializeResult result) in
       ret (res_json (JObj [("success", JBool true);
                            ("data", serializedResult);
                            ("timestamp", timestamp 0)])))
    (fun error =>
       res_status_json 500
         (JObj [("success", JBool false);
                ("error", JStr (message_or error "Query execution failed"));
                ("timestamp", timestamp 0)])).

(** [app.post("/api/langflow/query", ...)] *)
Definition langflowQuery (reqBody : jsval) : store -> http_reply * store :=
  answering
    (let* source := lift (destructurable "req.body" "query" reqBody) in
     let* query := lift (get source "query") in
     let* given := lift (get source "params") in
     let params := default_to given (JArr []) in
     if negb (truthy query) then
       ret (res_status_json 400
              (JObj [("success", JBool false);
                     ("error", JStr "Query parameter is required");
                     ("data", JNull)]))
     else
       let* values := lift (spread_iterable params) in
       let* result := prisma (queryRawUnsafe query values) in
       let* serializedResult := lift (serializeResult result) in
       let* rows := lift (get_length serializedResult) in
       ret (res_json (JObj [("success", JBool true);
                            ("data", serializedResult);
                            ("message",
                             JStr ("Query executed successfully. Returned "
                                   +:+ ToString rows +:+ " rows."));
                            ("timestamp", timestamp 0);
                            ("query", query)])))
    (fun error =>
       res_status_json 500
         (JObj [("success", JBool false);
                ("error", JStr (error_message error));
                ("data", JNull);
                ("timestamp", timestamp 0)])).


(** [Array.prototype.join] on the items of an array: [undefined] and
    [null] give the empty text. *)
Definition Array_join (sep : string) (items : list jsval) : string :=
  join sep (map (fun item => match item with
                             | JUndefined | JNull => ""
                             | _ => ToString item
                             end) items).

(** [receiver.join(sep)]: only an array has the method. *)
Definition call_join (receiver : string) (v : jsval) (sep : string)
  : completion string :=
  match v with
  | JArr items => Return (Array_join sep items)
  | JUndefined => Throw (TypeError "Cannot read properties of undefined (reading 'join')")
  | JNull => Throw (TypeError "Cannot read properties of null (reading 'join')")
  | _ => Throw (TypeError (receiver +:+ ".join is not a function"))
  end.

(** [where[key]] for a key among the own properties of [where]. *)
Definition get_own (v : jsval) (key : string) : jsval :=
  match ownEntries v with
  | Some props => lookup_prop key props
  | None => JUndefined
  end.

(** The callback of the query builder, run over the keys in order:
    [params.push(where[key]); return `${key} = $${paramIndex++}`]. *)
Fixpoint builderConditions (where_ : jsval) (keys : list string)
    (params : list jsval) (paramIndex : nat) : list string * list jsval * nat :=
  match keys with
  | [] => ([], params, paramIndex)
  | key :: rest =>
      let pushed := params ++ [get_own where_ key] in
      let condition := key +:+ " = $" +:+ pretty paramIndex in
      let '(conditions, params', paramIndex') :=
        builderConditions where_ rest pushed (S paramIndex) in
      (condition :: conditions, params', paramIndex')
  end.

(** [parseInt] is the engine's. *)
Variable parseInt : jsval -> float.

(** The statement and the parameters the query builder arrives at. *)
Definition builderQuery (table columns where_ limit orderBy : jsval)
  : completion (string * list jsval) :=
  do columnList <- call_join "columns" columns ", ";
  let query := "SELECT " +:+ columnList +:+ " FROM " +:+ ToString table in
  do keys <- (if truthy where_ then Object_keys where_ else Return []);
  let '(query1, params) :=
    if truthy where_ && (0 <? length keys)%nat then
      let '(whereConditions, params, _) := builderConditions where_ keys [] 1 in
      (query +:+ " WHERE " +:+ join " AND " whereConditions, params)
    else (query, []) in
  let query2 :=
    if truthy orderBy then query1 +:+ " ORDER BY " +:+ ToString orderBy else query1 in
  let query3 :=
    if truthy limit
    then query2 +:+ " LIMIT " +:+ Number_toString (parseInt limit)
    else query2 in
  Return (query3, params).

(** [app.post("/api/query/builder", ...)] *)
Definition queryBuilder (reqBody : jsval) : store -> http_reply * store :=
  answering
    (let* source := lift (destructurable "req.body" "table" reqBody) in
     let* table := lift (get source "table") in
     let* givenColumns := lift (get source "columns") in
     let columns := default_to givenColumns (JArr [JStr "*"]) in
     let* where_ := lift (get source "where") in
     let* limit := lift (get source "limit") in
     let* orderBy := lift (get source "orderBy") in
     if negb (truthy table) then
       ret (res_status_json 400
              (JObj [("success", JBool false);
                     ("error", JStr "Table name is required")]))
     else
       let* built := lift (builderQuery table columns where_ limit orderBy) in
       let* result := prisma (queryRawUnsafe (JStr built.1) built.2) in
       let* serializedResult := lift (serializeResult result) in
       let* count := lift (get_length serializedResult) in
       ret (res_json (JObj [("success", JBool true);
                            ("data", serializedResult);
                            ("query", JStr built.1);
                            ("params", JArr built.2);
                            ("count", count);
                            ("timestamp", timestamp 0)])))
    (fun error =>
       res_status_json 500
         (JObj [("success", JBool false);
                ("error", JStr (error_message error));
                ("timestamp", timestamp 0)])).


(** The cases of [/api/mcp/execute] that the blocks above do not cover. *)
Definition executeSelect (tableName : string) (where_ : jsval)
  : completion execute_step :=
  if truthy where_ then
    do whereKeys <- Object_keys where_;
    let whereText :=
      join " AND "
        (map (fun key => key +:+ " = $" +:+ pretty (indexOf key whereKeys + 1)%Z)
           whereKeys) in
    do values <- Object_values where_;
    Return (Execute
              (queryRawUnsafe
                 (JStr ("SELECT * FROM " +:+ tableName +:+ " WHERE " +:+ whereText))
                 values))
  else
    Return (Execute (queryRawUnsafe (JStr ("SELECT * FROM " +:+ tableName)) [])).

(** The insert case; the number is that of the [new Date()] it evaluated. *)
Definition executeInsert (tableName : string) (data : jsval)
  : completion (execute_step * nat) :=
  if negb (truthy data) then
    Return (Respond400 "Data parameter is required for insert operation", 0%nat)
  else if is_Subject tableName then
    do given_created <- get data "createdAt";
    let createdAt :=
      if truthy given_created then given_created else JDate (Date_now 0%nat) in
    let reads := if truthy given_created then 0%nat else 1%nat in
    do given_updated <- get data "updatedAt";
    let updatedAt :=
      if truthy given_updated then given_updated else JDate (Date_now reads) in
    let reads' := if truthy given_updated then reads else S reads in
    Return (Execute
              (subject_create
                 (JObj [("data",
                         JObj (set_prop "updatedAt" updatedAt
                                 (set_prop "createdAt" createdAt (spread data))))])),
            reads')
  else
    do call <- executeInsertFallback tableName data;
    Return (Execute call, 0%nat).

(** From the destructured body to the reply or the call. *)
Definition executePlan (operation table data where_ : jsval)
  : completion (execute_step * nat) :=
  if negb (truthy operation) || negb (truthy table) then
    Return (Respond400 "Operation and table parameters are required", 0%nat)
  else
    do tableName <- call_toLowerCase_of "table" table;
    do op <- call_toLowerCase_of "operation" operation;
    if String.eqb op "select" then
      do step <- executeSelect tableName where_; Return (step, 0%nat)
    else if String.eqb op "insert" then executeInsert tableName data
    else if String.eqb op "update" then
      do step <- executeUpdate tableName data where_; Return (step, 0%nat)
    else if String.eqb op "delete" then
      do step <- executeDelete tableName where_; Return (step, 0%nat)
    else
      Return (Respond400 "Invalid operation. Supported: select, insert, update, delete",
              0%nat).

(** [app.post("/api/mcp/execute", ...)] *)
Definition mcpExecute (reqBody : jsval) : store -> http_reply * store :=
  fun st =>
    let failed (reads : nat) (error : js_error) :=
      res_status_json 500
        (JObj [("success", JBool false);
               ("error", JStr (message_or error "Operation execution failed"));
               ("timestamp", timestamp reads)]) in
    match destructurable "req.body" "operation" reqBody with
    | Throw e => (failed 0%nat e, st)
    | Return source =>
        let operation := read source "operation" in
        let table := read source "table" in
        match executePlan operation table (read source "data") (read source "where") with
        | Throw e => (failed 0%nat e, st)
        | Return (Respond400 error, _) =>
            (res_status_json 400 (JObj [("success", JBool false); ("error", JStr error)]),
             st)
        | Return (Execute call, reads) =>
            match prisma call st with
            | (Throw e, st') => (failed reads e, st')
            | (Return result, st') =>
                match serializeResult result with
                | Throw e => (failed reads e, st')
                | Return serializedResult =>
                    (res_json (JObj [("success", JBool true);
                                     ("data", serializedResult);
                                     ("operation", operation);
                                     ("table", table);
                                     ("timestamp", timestamp reads)]),
                     st')
                end
            end
        end
    end.


(** [String.prototype.toUpperCase] is the engine's where its result is
    only put into a message. *)
Variable toUpperCase : string -> string.

(** [operation.toUpperCase()] *)
Definition call_toUpperCase (v : jsval) : completion string :=
  match v with
  | JStr s => Return (toUpperCase s)
  | JUndefined =>
      Throw (TypeError "Cannot read properties of undefined (reading 'toUpperCase')")
  | JNull =>
      Throw (TypeError "Cannot read properties of null (reading 'toUpperCase')")
  | _ => Throw (TypeError "operation.toUpperCase is not a function")
  end.

(** How many times [handleCrudOperation] evaluates [new Date()]. *)
Definition crudReads (operation table data : jsval) : nat :=
  match operation with
  | JStr op =>
      if strict_eq_str table "subjects" then
        if String.eqb (toLowerCase op) "insert" then
          (if truthy (read data "createdAt") then 0 else 1)
          + (if truthy (read data "updatedAt") then 0 else 1)
        else if String.eqb (toLowerCase op) "update" then 1
        else 0
      else 0
  | _ => 0
  end%nat.

(** [app.post("/api/langflow/crud", ...)] *)
Definition langflowCrud (reqBody : jsval) : store -> http_reply * store :=
  fun st =>
    let failed (reads : nat) (error : js_error) :=
      res_status_json 500
        (JObj [("success", JBool false);
               ("error", JStr (error_message error));
               ("data", JNull);
               ("timestamp", timestamp reads)]) in
    match destructurable "req.body" "operation" reqBody with
    | Throw e => (failed 0%nat e, st)
    | Return source =>
        let operation := read source "operation" in
        let table := read source "table" in
        let data := read source "data" in
        if negb (truthy operation) || negb (truthy table) then
          (res_status_json 400
             (JObj [("success", JBool false);
                    ("error", JStr "Operation and table are required");
                    ("data", JNull)]), st)
        else
          match handleCrudOperation operation table data (read source "where") st with
          | (Throw e, st') =>
              (failed (match crudCall operation table data (read source "where") with
                       | Return _ => crudReads operation table data
                       | Throw _ => 0%nat
                       end) e, st')
          | (Return result, st') =>
              let reads := crudReads operation table data in
              match
                (do serializedResult <- serializeResult result;
                 do upper <- call_toUpperCase operation;
                 Return
                   (res_json
                      (JObj [("success", JBool true);
                             ("data", serializedResult);
                             ("message",
                              JStr (upper +:+ " operation on " +:+ ToString table
                                    +:+ " completed successfully"));
                             ("operation", operation);
                             ("table", table);
                             ("timestamp", timestamp reads)])))
              with
              | Return reply => (reply, st')
              | Throw e => (failed reads e, st')
              end
          end
    end.

(** ** The JSON-RPC endpoint [/mcp] of [index.ts]

    Its [tools/call] is the [switch] of the stdio server with the
    statements laid out differently; [callToolWith] is that [switch] over
    the three statements. *)

Definition http_schema_columns_sql : string :=
  "
                  SELECT column_name, data_type, is_nullable, column_default
                  FROM information_schema.columns
                  WHERE table_name = $1 AND table_schema = 'public'
                  ORDER BY ordinal_position
                ".

Definition http_schema_tables_sql : string :=
  "
                  SELECT table_name
                  FROM information_schema.tables
                  WHERE table_schema = 'public' AND table_type = 'BASE TABLE'
                  ORDER BY table_name
                ".

Definition http_list_tables_sql : string :=
  "
                SELECT table_name
                FROM information_schema.tables
                WHERE table_schema = 'public' AND table_type = 'BASE TABLE'
                ORDER BY table_name
              ".

Definition callToolWith (columns_sql tables_sql listing_sql : string)
    (name args : jsval) : M store jsval :=
  if strict_eq_str name "query_database" then
    let* query := lift (get args "query") in
    let* params := lift (get args "params") in
    let* values := lift (spread_iterable (js_or params (JArr []))) in
    let* result := prisma (queryRawUnsafe query values) in
    lift (serializeResult result)
  else if strict_eq_str name "execute_crud" then
    let* operation := lift (get args "operation") in
    let* table := lift (get args "table") in
    let* data := lift (get args "data") in
    let* where_ := lift (get args "where") in
    handleCrudOperation operation table data where_
  else if strict_eq_str name "get_schema" then
    let* table := lift (get args "table") in
    if truthy table
    then prisma (queryRawUnsafe (JStr columns_sql) [table])
    else prisma (queryRawUnsafe (JStr tables_sql) [])
  else if strict_eq_str name "list_tables" then
    prisma (queryRawUnsafe (JStr listing_sql) [])
  else lift (Throw (Error ("Unknown tool: " +:+ ToString name))).

Definition mcpToolsListResult : jsval :=
  JObj [("tools", JArr [
    JObj [("name", JStr "query_database");
          ("description", JStr "Execute raw SQL queries on the ERP database");
          ("inputSchema", JObj [
             ("type", JStr "object");
             ("properties", JObj [
                ("query", JObj [("type", JStr "string");
                                ("description", JStr "SQL query to execute")]);
                ("params", JObj [("type", JStr "array");
                                 ("description", JStr "Query parameters")])]);
             ("required", JArr [JStr "query"])])];
    JObj [("name", JStr "execute_crud");
          ("description",
           JStr "Perform CRUD operations (SELECT, INSERT, UPDATE, DELETE) on database tables");
          ("inputSchema", JObj [
             ("type", JStr "object");
             ("properties", JObj [
                ("operation", JObj [("type", JStr "string");
                                    ("enum", JArr [JStr "select"; JStr "insert";
                                                   JStr "update"; JStr "delete"]);
                                    ("description", JStr "CRUD operation type")]);
                ("table", JObj [("type", JStr "string");
                                ("description", JStr "Database table name")]);
                ("data", JObj [("type", JStr "object");
                               ("description", JStr "Data for INSERT/UPDATE operations")]);
                ("where", JObj [("type", JStr "object");
                                ("description",
                                 JStr "WHERE conditions for SELECT/UPDATE/DELETE operations")])]);
             ("required", JArr [JStr "operation"; JStr "table"])])];
    JObj [("name", JStr "get_schema");
          ("description", JStr "Get database schema information");
          ("inputSchema", JObj [
             ("type", JStr "object");
             ("properties", JObj [
                ("table", JObj [("type", JStr "string");
                                ("description", JStr "Specific table name (optional)")])])])];
    JObj [("name", JStr "list_tables");
          ("description", JStr "List all available database tables");
          ("inputSchema", JObj [("type", JStr "object");
                                ("properties", JObj [])])]])].

(** [app.post("/mcp", ...)].  A throw of the outer [catch] itself (it reads
    [req.body.id]) leaves the request without a reply. *)
Definition mcpPost (reqBody : jsval) : M store http_reply :=
  fun st =>
    match
      (let* source := lift (destructurable "req.body" "jsonrpc" reqBody) in
       let jsonrpc := read source "jsonrpc" in
       let id := read source "id" in
       let method := read source "method" in
       let params := read source "params" in
       if negb (strict_eq_str jsonrpc "2.0") then
         ret (res_status_json 400
                (JObj [("jsonrpc", JStr "2.0"); ("id", id);
                       ("error", JObj [("code", JNum (-32600));
                                       ("message", JStr "Invalid Request")])]))
       else if strict_eq_str method "initialize" then
         ret (res_json (JObj [("jsonrpc", JStr "2.0"); ("id", id);
                              ("result", initializeResult)]))
       else if strict_eq_str method "tools/list" then
         ret (res_json (JObj [("jsonrpc", JStr "2.0"); ("id", id);
                              ("result", mcpToolsListResult)]))
       else if strict_eq_str method "tools/call" then
         let* callee := lift (destructurable "params" "name" params) in
         try_catch
           (let* result :=
              callToolWith http_schema_columns_sql http_schema_tables_sql
                http_list_tables_sql (read callee "name") (read callee "arguments") in
            let* text := lift (JSON_stringify_pretty result) in
            ret (res_json
                   (JObj [("jsonrpc", JStr "2.0"); ("id", id);
                          ("result",
                           JObj [("content",
                                  JArr [JObj [("type", JStr "text");
                                              ("text", text)]])])])))
           (fun error =>
              ret (res_json
                     (JObj [("jsonrpc", JStr "2.0"); ("id", id);
                            ("error",
                             JObj [("code", JNum (-32603));
                                   ("message",
                                    JStr (message_or error "Internal error"))])])))
       else
         ret (res_status_json 400
                (JObj [("jsonrpc", JStr "2.0"); ("id", id);
                       ("error", JObj [("code", JNum (-32601));
                                       ("message", JStr "Method not found")])]))) st
    with
    | (Return reply, st') => (Return reply, st')
    | (Throw _, st') =>
        match get reqBody "id" with
        | Return id =>
            (Return
               (res_status_json 500
                  (JObj [("jsonrpc", JStr "2.0"); ("id", id);
                         ("error", JObj [("code", JNum (-32603));
                                         ("message", JStr "Internal error")])])),
             st')
        | Throw e => (Throw e, st')
        end
    end.

End Endpoints.

(** A reply whose status and [success] flag agree: 200 with
    [success: true], or 400 or 500 with [success: false] and an [error]
    text. *)
Definition reply_sound (r : http_reply) : Prop :=
  (status r = 200%nat /\ read (body r) "success" = JBool true)
  \/ ((status r = 400%nat \/ status r = 500%nat)
      /\ read (body r) "success" = JBool false
      /\ exists text, read (body r) "error" = JStr text).

(** A handler all of whose replies are sound and whose 400 replies leave
    the store untouched. *)
Definition sound_handler {store : Type}
    (handler : jsval -> store -> http_reply * store) : Prop :=
  forall reqBody st,
    reply_sound (handler reqBody st).1
    /\ (status (handler reqBody st).1 = 400%nat -> (handler reqBody st).2 = st).

(** ** Structural induction on values

    The generated principle says nothing about the values nested in an
    array or an object; this one does. *)
Section jsval_nested_ind.

Variable P : jsval -> Prop.
Hypothesis P_undefined : P JUndefined.
Hypothesis P_null : P JNull.
Hypothesis P_bool : forall b, P (JBool b).
Hypothesis P_num : forall x, P (JNum x).
Hypothesis P_bigint : forall z, P (JBigInt z).
Hypothesis P_str : forall s, P (JStr s).
Hypothesis P_date : forall ms, P (JDate ms).
Hypothesis P_arr : forall items, Forall P items -> P (JArr items).
Hypothesis P_obj : forall props, Forall (fun kv => P kv.2) props -> P (JObj props).

Fixpoint jsval_nested_ind (v : jsval) : P v :=
  match v with
  | JUndefined => P_undefined
  | JNull => P_null
  | JBool b => P_bool b
  | JNum x => P_num x
  | JBigInt z => P_bigint z
  | JStr s => P_str s
  | JDate ms => P_date ms
  | JArr items =>
      P_arr items
        ((fix all (l : list jsval) : Forall P l :=
            match l with
            | [] => List.Forall_nil P
            | item :: rest => @List.Forall_cons _ P item rest (jsval_nested_ind item) (all rest)
            end) items)
  | JObj props =>
      P_obj props
        ((fix all (l : list (string * jsval)) : Forall (fun kv => P kv.2) l :=
            match l with
            | [] => List.Forall_nil _
            | (k, item) :: rest =>
                @List.Forall_cons _ (fun kv => P kv.2) (k, item) rest
                  (jsval_nested_ind item) (all rest)
            end) props)
  end.

End jsval_nested_ind.

(** * Properties *)

(** ** JavaScript primitives *)

Example toLowerCase_ex : toLowerCase "SeLeCT" = "select".
Proof. reflexivity. Qed.

(** ** The result serializer *)

Lemma pretty_N_char_digit x : (x < 10)%N -> is_digit (pretty_N_char x) = true.
Proof.
  intros Hx. unfold pretty_N_char.
  destruct x as [|p]; [reflexivity|].
  do 4 (destruct p as [p|p|]; try reflexivity; try lia).
Qed.

Lemma pretty_N_go_digits x s :
  all_digits s = true ->
  all_digits (pretty_N_go x s) = true
  /\ (s <> "" \/ (0 < x)%N -> pretty_N_go x s <> "").
Proof.
  revert s. induction (N.lt_wf_0 x) as [x _ IH]. intros s Hs.
  destruct (decide (x = 0%N)) as [->|Hx].
  - rewrite pretty_N_go_0. split; [exact Hs|]. intros [Hne|Hlt]; [exact Hne|lia].
  - rewrite pretty_N_go_step by lia.
    destruct (IH (x `div` 10)%N) with (s := String (pretty_N_char (x `mod` 10)) s)
      as [Hall Hne].
    + apply N.div_lt; lia.
    + simpl. rewrite pretty_N_char_digit by (apply N.mod_lt; lia). exact Hs.
    + split; [exact Hall|]. intros _. apply Hne. left. discriminate.
Qed.

Lemma digits_not_minus s :
  all_digits s = true -> s <> "" -> is_decimal_text s = true.
Proof.
  intros Hall Hne. destruct s as [|c rest]; [congruence|].
  simpl in Hall. apply andb_true_iff in Hall as [Hc Hrest].
  unfold is_decimal_text.
  destruct c as [[] [] [] [] [] [] [] []]; simpl in *; try discriminate; try rewrite Hrest; try reflexivity.
Qed.

Lemma pretty_positive_digits (p : positive) :
  all_digits (pretty p) = true /\ pretty p <> "".
Proof.
  unfold pretty, pretty_positive, pretty, pretty_N.
  destruct (decide (N.pos p = 0%N)) as [?|_]; [lia|].
  destruct (pretty_N_go_digits (N.pos p) "" eq_refl) as [Hall Hne].
  split; [exact Hall|]. apply Hne. right. lia.
Qed.

(** [BigInt.prototype.toString()] is a decimal text. *)
Lemma pretty_Z_decimal (z : Z) : is_decimal_text (pretty z) = true.
Proof.
  destruct z as [|p|p].
  - reflexivity.
  - destruct (pretty_positive_digits p) as [Hall Hne].
    apply digits_not_minus; assumption.
  - destruct (pretty_positive_digits p) as [Hall Hne].
    change (pretty (Z.neg p)) with (String "-" (pretty p)).
    change (negb (String.eqb (pretty p) "") && all_digits (pretty p) = true).
    rewrite Hall. destruct (pretty p); [congruence|reflexivity].
Qed.

Section SerializerFacts.

Context `{Host}.

Lemma jsonValue_undefined_inv v : jsonValue v = JUndefined -> v = JUndefined.
Proof.
  destruct v; simpl; try discriminate; auto.
  destruct (PrimFloat.is_finite x); [destruct (PrimFloat.is_zero x)|]; discriminate.
Qed.

(** No bigint survives the round trip, at any depth. *)
Lemma jsonValue_no_bigint v : has_bigint (jsonValue v) = false.
Proof.
  induction v as [| |b|x|z|s|ms|items IH|props IH] using jsval_nested_ind;
    simpl; auto.
  - destruct (PrimFloat.is_finite x); [destruct (PrimFloat.is_zero x)|]; reflexivity.
  - induction IH as [|item rest Hitem _ IHrest]; simpl; [reflexivity|].
    rewrite IHrest, orb_false_r.
    unfold array_item. destruct (is_defined (jsonValue item)); auto.
  - induction IH as [|[k item] rest Hitem _ IHrest]; [reflexivity|].
    simpl in Hitem. cbn [omap list_omap]. unfold object_prop at 1.
    destruct (is_defined (jsonValue item)); [|exact IHrest].
    cbn [existsb]. rewrite Hitem. exact IHrest.
Qed.

Lemma serializeResult_rows (rows : list (list (string * jsval))) :
  serializeResult (JArr (JObj <$> rows)) = Return (JArr (JObj <$> (serializeRow <$> rows))).
Proof.
  unfold serializeResult. simpl. f_equal. f_equal.
  induction rows as [|row rows IH]; simpl; [reflexivity|].
  f_equal. exact IH.
Qed.

Lemma serializeRow_bigint props k z :
  (k, JBigInt z) ∈ props -> (k, JStr (pretty z)) ∈ serializeRow props.
Proof.
  intros Hin. unfold serializeRow. apply list_elem_of_omap.
  exists (k, JBigInt z). split; [exact Hin|reflexivity].
Qed.

End SerializerFacts.

(** C9. The result serializer turns every bigint of every row into its
    decimal text, whatever its magnitude: the rows come back as rows, the
    column that held the bigint [z] holds the text [pretty z], which is a
    decimal text from which [z] can be read back, no bigint is left
    anywhere in the result, and the bigint [1] comes back as the text
    ["1"], not as the number [1]. *)
Theorem serializer_bigint_always_text `{Host} :
  (forall rows : list (list (string * jsval)),
     exists out : list (list (string * jsval)),
       serializeResult (JArr (JObj <$> rows)) = Return (JArr (JObj <$> out))
       /\ length out = length rows
       /\ has_bigint (JArr (JObj <$> out)) = false
       /\ forall i props k z,
            rows !! i = Some props ->
            (k, JBigInt z) ∈ props ->
            exists props', out !! i = Some props' /\ (k, JStr (pretty z)) ∈ props')
  /\ (forall z : Z, is_decimal_text (pretty z) = true)
  /\ (forall z1 z2 : Z, jsonValue (JBigInt z1) = jsonValue (JBigInt z2) -> z1 = z2)
  /\ serializeResult (JArr [JObj [("n", JBigInt 1)]]) = Return (JArr [JObj [("n", JStr "1")]]).
Proof.
  split; [|split; [exact pretty_Z_decimal|split; [|reflexivity]]].
  2:{ intros z1 z2 [= Heq]. exact (pretty_Z_inj _ _ Heq). }
  intros rows. exists (serializeRow <$> rows).
  split; [apply serializeResult_rows|].
  split; [apply length_fmap|].
  split.
  - pose proof (jsonValue_no_bigint (JArr (JObj <$> rows))) as Hno.
    pose proof (serializeResult_rows rows) as Hser.
    unfold serializeResult in Hser.
    destruct (jsonValue (JArr (JObj <$> rows))); try discriminate; congruence.
  - intros i props k z Hrow Hin. exists (serializeRow props). split.
    + rewrite list_lookup_fmap, Hrow. reflexivity.
    + apply serializeRow_bigint, Hin.
Qed.

Lemma serializeRow_number `{Host} props k x :
  (k, JNum x) ∈ serializeRow props -> exists x', (k, JNum x') ∈ props.
Proof.
  unfold serializeRow. intros Hin.
  apply list_elem_of_omap in Hin as [[k' item] [Hin Heq]].
  unfold object_prop in Heq.
  destruct (is_defined (jsonValue item)); [|discriminate].
  injection Heq as -> Hval.
  destruct item; simpl in Hval; try discriminate.
  eexists. exact Hin.
Qed.

(** C4. In every result row handed to the serializer, an integer-typed
    (bigint) value of magnitude above 2^53-1 comes back as its decimal text
    in the same row and column, and the serializer puts no number in a
    column that did not hold one; the 64-bit integer 9223372036854775807
    comes back as the text ["9223372036854775807"]. *)
Theorem serializer_unsafe_integer_text `{Host}
    (rows : list (list (string * jsval))) (i : nat)
    (props : list (string * jsval)) (k : string) (z : Z) :
  rows !! i = Some props ->
  (k, JBigInt z) ∈ props ->
  (2 ^ 53 - 1 < Z.abs z)%Z ->
  (exists out props',
     serializeResult (JArr (JObj <$> rows)) = Return (JArr (JObj <$> out))
     /\ out !! i = Some props'
     /\ (k, JStr (pretty z)) ∈ props'
     /\ is_decimal_text (pretty z) = true
     /\ forall k' x, (k', JNum x) ∈ props' -> exists x', (k', JNum x') ∈ props)
  /\ serializeResult (JArr [JObj [("n", JBigInt 9223372036854775807)]])
     = Return (JArr [JObj [("n", JStr "9223372036854775807")]]).
Proof.
  intros Hrow Hin _. split; [|reflexivity].
  exists (serializeRow <$> rows), (serializeRow props).
  split; [apply serializeResult_rows|].
  split; [rewrite list_lookup_fmap, Hrow; reflexivity|].
  split; [apply serializeRow_bigint, Hin|].
  split; [apply pretty_Z_decimal|].
  intros k' x. apply serializeRow_number.
Qed.

Lemma serializer_unsafe_integer_text_witness :
  (exists out props',
     serializeResult (H := sample_host)
       (JArr (JObj <$> [[("id", JBigInt 9007199254740993); ("name", JStr "a")]]))
     = Return (JArr (JObj <$> out))
     /\ out !! 0%nat = Some props'
     /\ ("id", JStr (pretty 9007199254740993%Z)) ∈ props'
     /\ is_decimal_text (pretty 9007199254740993%Z) = true
     /\ forall k' x, (k', JNum x) ∈ props' ->
          exists x', (k', JNum x') ∈ [("id", JBigInt 9007199254740993); ("name", JStr "a")])
  /\ serializeResult (H := sample_host) (JArr [JObj [("n", JBigInt 9223372036854775807)]])
     = Return (JArr [JObj [("n", JStr "9223372036854775807")]]).
Proof.
  apply (serializer_unsafe_integer_text (H := sample_host)
           [[("id", JBigInt 9007199254740993); ("name", JStr "a")]] 0
           [("id", JBigInt 9007199254740993); ("name", JStr "a")] "id"
           9007199254740993%Z).
  - reflexivity.
  - apply list_elem_of_here.
  - vm_compute. reflexivity.
Defined.

(** ** The SQL fragments and [handleCrudOperation] *)

Section CrudFacts.

Context `{Host}.

Lemma eqTerms_length offset keys : length (eqTerms offset keys) = length keys.
Proof. apply length_imap. Qed.

Lemma eqTerms_lookup offset (C : list (string * jsval)) i key value :
  C !! i = Some (key, value) ->
  eqTerms offset (C.*1) !! i = Some (key +:+ " = $" +:+ pretty (offset + i + 1)%nat).
Proof.
  intros Hi. unfold eqTerms.
  rewrite list_lookup_imap, list_lookup_fmap, Hi. reflexivity.
Qed.

Lemma values_lookup (C : list (string * jsval)) i key value :
  C !! i = Some (key, value) -> C.*2 !! i = Some value.
Proof. intros Hi. rewrite list_lookup_fmap, Hi. reflexivity. Qed.

(** The branches of [crudCall], one equation per operation. *)
Lemma crudCall_select op table data where_ :
  toLowerCase op = "select" ->
  crudCall (JStr op) table data where_ =
    if strict_eq_str table "subjects" then
      Return (subject_findMany
                (if truthy where_ then JObj [("where", where_)] else JUndefined))
    else
      do clause <- whereClause 0 where_;
      do values <- whereValues where_;
      Return (queryRawUnsafe
                (JStr ("SELECT * FROM " +:+ ToString table +:+ " " +:+ clause)) values).
Proof. intros Hop. unfold crudCall. simpl. rewrite Hop. reflexivity. Qed.

Lemma crudCall_insert op table data where_ :
  toLowerCase op = "insert" ->
  crudCall (JStr op) table data where_ =
    if strict_eq_str table "subjects" then
      do given_created <- get data "createdAt";
      do given_updated <- get data "updatedAt";
      Return (subject_create
                (JObj [("data",
                        JObj (set_prop "updatedAt"
                                (if truthy given_updated then given_updated
                                 else JDate (Date_now (if truthy given_created
                                                       then 0%nat else 1%nat)))
                                (set_prop "createdAt"
                                   (if truthy given_created then given_created
                                    else JDate (Date_now 0%nat))
                                   (spread data))))]))
    else
      do keys <- Object_keys data;
      do values <- Object_values data;
      Return (queryRawUnsafe
                (JStr ("INSERT INTO " +:+ ToString table +:+ " (" +:+ join ", " keys
                       +:+ ") VALUES (" +:+ join ", " (placeholders keys)
                       +:+ ") RETURNING *"))
                values).
Proof. intros Hop. unfold crudCall. simpl. rewrite Hop. reflexivity. Qed.

Lemma crudCall_update op table data where_ :
  toLowerCase op = "update" ->
  crudCall (JStr op) table data where_ =
    if strict_eq_str table "subjects" then
      Return (subject_updateMany
                (JObj [("where", where_);
                       ("data", JObj (set_prop "updatedAt" (JDate (Date_now 0%nat))
                                        (spread data)))]))
    else
      do keys <- Object_keys data;
      do clause <- whereClause (length keys) where_;
      do dataValues <- Object_values data;
      do restValues <- whereValues where_;
      Return (queryRawUnsafe
                (JStr ("UPDATE " +:+ ToString table +:+ " SET "
                       +:+ join ", " (eqTerms 0 keys) +:+ " " +:+ clause
                       +:+ " RETURNING *"))
                (dataValues ++ restValues)).
Proof. intros Hop. unfold crudCall. simpl. rewrite Hop. reflexivity. Qed.

Lemma crudCall_delete op table data where_ :
  toLowerCase op = "delete" ->
  crudCall (JStr op) table data where_ =
    if strict_eq_str table "subjects" then
      Return (subject_deleteMany (JObj [("where", where_)]))
    else
      do clause <- whereClause 0 where_;
      do values <- whereValues where_;
      Return (queryRawUnsafe
                (JStr ("DELETE FROM " +:+ ToString table +:+ " " +:+ clause
                       +:+ " RETURNING *"))
                values).
Proof. intros Hop. unfold crudCall. simpl. rewrite Hop. reflexivity. Qed.

Lemma whereClause_object offset (C : list (string * jsval)) :
  whereClause offset (JObj C) = Return ("WHERE " +:+ join " AND " (eqTerms offset (C.*1))).
Proof. reflexivity. Qed.

End CrudFacts.

(** C3. For a constraint set [C] with [n] entries and a start index
    [k = offset + 1], the WHERE fragment is the [n] terms [key = $index]
    joined by [" AND "], the term of the [i]-th entry of [C] carrying the
    index [k + i].  In the UPDATE statement of a table without fast path
    the SET terms are numbered from 1, the WHERE terms continue after them
    from [length data + 1], and the values handed to the gateway are the
    SET values followed by the WHERE values, so that the placeholder [$p] of
    every term is bound to the [p]-th value. *)
Theorem where_fragment_numbering `{Host} :
  (forall (C : list (string * jsval)) (offset : nat),
     whereClause offset (JObj C)
       = Return ("WHERE " +:+ join " AND " (eqTerms offset (C.*1)))
     /\ length (eqTerms offset (C.*1)) = length C
     /\ forall i key value,
          C !! i = Some (key, value) ->
          eqTerms offset (C.*1) !! i
            = Some (key +:+ " = $" +:+ pretty (offset + 1 + i)%nat))
  /\ (forall (op : string) (table : jsval) (data where_ : list (string * jsval)),
        toLowerCase op = "update" ->
        strict_eq_str table "subjects" = false ->
        exists values,
          crudCall (JStr op) table (JObj data) (JObj where_)
            = Return (queryRawUnsafe
                        (JStr ("UPDATE " +:+ ToString table +:+ " SET "
                               +:+ join ", " (eqTerms 0 (data.*1)) +:+ " "
                               +:+ ("WHERE " +:+ join " AND "
                                      (eqTerms (length data) (where_.*1)))
                               +:+ " RETURNING *"))
                        values)
          /\ values = data.*2 ++ where_.*2
          /\ (forall i key value,
                data !! i = Some (key, value) ->
                eqTerms 0 (data.*1) !! i
                  = Some (key +:+ " = $" +:+ pretty (i + 1)%nat)
                /\ values !! i = Some value)
          /\ (forall j key value,
                where_ !! j = Some (key, value) ->
                eqTerms (length data) (where_.*1) !! j
                  = Some (key +:+ " = $" +:+ pretty (length data + j + 1)%nat)
                /\ values !! (length data + j)%nat = Some value)).
Proof.
  split.
  - intros C offset. split; [reflexivity|]. split.
    + rewrite eqTerms_length. apply length_fmap.
    + intros i key value Hi. rewrite (eqTerms_lookup _ _ _ _ _ Hi).
      replace (offset + 1 + i)%nat with (offset + i + 1)%nat by lia.
      reflexivity.
  - intros op table data where_ Hop Htable.
    exists (data.*2 ++ where_.*2).
    split.
    { rewrite (crudCall_update _ _ _ _ Hop), Htable.
      cbn [Object_keys Object_values ownEntries bind].
      rewrite whereClause_object. cbn [bind whereValues truthy Object_values ownEntries].
      rewrite length_fmap. reflexivity. }
    split; [reflexivity|]. split.
    + intros i key value Hi. split.
      * apply (eqTerms_lookup 0 _ _ _ _ Hi).
      * apply lookup_app_l_Some. apply (values_lookup _ _ _ _ Hi).
    + intros j key value Hj. split.
      * apply (eqTerms_lookup _ _ _ _ _ Hj).
      * rewrite lookup_app_r by (rewrite length_fmap; lia).
        rewrite length_fmap.
        replace (length data + j - length data)%nat with j by lia.
        apply (values_lookup _ _ _ _ Hj).
Qed.

Lemma where_fragment_numbering_witness :
  eqTerms 2 ["rollNumber"; "id"] !! 1%nat = Some "id = $4"
  /\ exists values,
       crudCall (H := sample_host) (JStr "UPDATE") (JStr "students")
         (JObj [("classId", JStr "c2"); ("name", JNull)])
         (JObj [("rollNumber", JStr "STU001"); ("id", JNum 3)])
       = Return (queryRawUnsafe
                   (JStr "UPDATE students SET classId = $1, name = $2 WHERE rollNumber = $3 AND id = $4 RETURNING *")
                   values)
       /\ values !! 3%nat = Some (JNum 3).
Proof.
  destruct (where_fragment_numbering (H := sample_host)) as [Hfrag Hupd].
  split.
  - destruct (Hfrag [("rollNumber", JStr "STU001"); ("id", JNum 3)] 2%nat)
      as (_ & _ & Hterm).
    exact (Hterm 1%nat "id" (JNum 3) eq_refl).
  - destruct (Hupd "UPDATE" (JStr "students")
                [("classId", JStr "c2"); ("name", JNull)]
                [("rollNumber", JStr "STU001"); ("id", JNum 3)] eq_refl eq_refl)
      as (values & Hcall & _ & _ & Hwhere).
    exists values. split; [exact Hcall|].
    exact (proj2 (Hwhere 1%nat "id" (JNum 3) eq_refl)).
Defined.

Section CrudGatewayFacts.

Context `{Host} {store : Type} `{Gateway store}.

Lemma handleCrudOperation_call operation table data where_ call (st : store) :
  crudCall operation table data where_ = Return call ->
  handleCrudOperation operation table data where_ st = prisma call st.
Proof. intros Hcall. unfold handleCrudOperation, bindM, lift. rewrite Hcall. reflexivity. Qed.

Lemma handleCrudOperation_throw operation table data where_ e (st : store) :
  crudCall operation table data where_ = Throw e ->
  handleCrudOperation operation table data where_ st = (Throw e, st).
Proof. intros Hcall. unfold handleCrudOperation, bindM, lift. rewrite Hcall. reflexivity. Qed.

Lemma lookup_set_prop_eq k v props : lookup_prop k (set_prop k v props) = v.
Proof.
  induction props as [|[k' v'] rest IH]; simpl.
  - rewrite String.eqb_refl. reflexivity.
  - destruct (String.eqb k k') eqn:E; simpl; rewrite E; auto.
Qed.

Lemma lookup_set_prop_ne k k2 v props :
  k <> k2 -> lookup_prop k (set_prop k2 v props) = lookup_prop k props.
Proof.
  intros Hne. induction props as [|[k' v'] rest IH]; simpl.
  - apply String.eqb_neq in Hne. rewrite Hne. reflexivity.
  - destruct (String.eqb k2 k') eqn:E; simpl.
    + apply String.eqb_eq in E. subst k'.
      apply String.eqb_neq in Hne. rewrite Hne. reflexivity.
    + destruct (String.eqb k k'); auto.
Qed.

End CrudGatewayFacts.

(** C1, as the code has it.  An update or a delete whose [where] is the
    empty object meets no guard: [handleCrudOperation] throws nothing of its
    own and its outcome is that of the single gateway call it makes, which
    on the generic path is the statement with a bare [WHERE] bound to the
    data values (to nothing for delete), and for the table [subjects] is
    [updateMany] / [deleteMany] with the empty filter. *)
Theorem empty_where_not_guarded `{Host} {store : Type} `{Gateway store}
    (table data : jsval) (st : store) :
  (forall d : list (string * jsval),
     handleCrudOperation (JStr "update") table (JObj d) (JObj []) st
     = prisma
         (if strict_eq_str table "subjects"
          then subject_updateMany
                 (JObj [("where", JObj []);
                        ("data", JObj (set_prop "updatedAt" (JDate (Date_now 0%nat)) d))])
          else queryRawUnsafe
                 (JStr ("UPDATE " +:+ ToString table +:+ " SET "
                        +:+ join ", " (eqTerms 0 (d.*1)) +:+ " WHERE  RETURNING *"))
                 (d.*2))
         st)
  /\ handleCrudOperation (JStr "delete") table data (JObj []) st
     = prisma
         (if strict_eq_str table "subjects"
          then subject_deleteMany (JObj [("where", JObj [])])
          else queryRawUnsafe
                 (JStr ("DELETE FROM " +:+ ToString table +:+ " WHERE  RETURNING *")) [])
         st.
Proof.
  split.
  - intros d. apply handleCrudOperation_call.
    rewrite crudCall_update by reflexivity.
    destruct (strict_eq_str table "subjects"); [reflexivity|].
    cbn. rewrite app_nil_r. reflexivity.
  - apply handleCrudOperation_call.
    rewrite crudCall_delete by reflexivity.
    destruct (strict_eq_str table "subjects"); reflexivity.
Qed.

(** C1 fails as stated: with [where = {}] a delete on [notices], an update
    on [students] and a delete on [subjects] each reach the gateway, which
    here records them, and nothing is thrown before the call. *)
Lemma empty_where_reaches_gateway :
  handleCrudOperation (H := sample_host) (H0 := recording_gateway)
    (JStr "delete") (JStr "notices") JUndefined (JObj []) []
  = (Return (JArr []),
     [queryRawUnsafe (JStr "DELETE FROM notices WHERE  RETURNING *") []])
  /\ handleCrudOperation (H := sample_host) (H0 := recording_gateway)
       (JStr "update") (JStr "students") (JObj [("classId", JStr "c2")]) (JObj []) []
     = (Return (JArr []),
        [queryRawUnsafe (JStr "UPDATE students SET classId = $1 WHERE  RETURNING *")
           [JStr "c2"]])
  /\ handleCrudOperation (H := sample_host) (H0 := recording_gateway)
       (JStr "delete") (JStr "subjects") JUndefined (JObj []) []
     = (Return (JArr []), [subject_deleteMany (JObj [("where", JObj [])])])
  /\ ~ (exists e,
         crudCall (H := sample_host) (JStr "delete") (JStr "notices") JUndefined (JObj [])
         = Throw e)
  /\ ~ (exists e,
         crudCall (H := sample_host) (JStr "update") (JStr "students")
           (JObj [("classId", JStr "c2")]) (JObj [])
         = Throw e).
Proof.
  repeat split; try reflexivity; intros [e He]; discriminate He.
Qed.

(** C2 fails as stated: a table name with spaces and a semicolon, and a
    column name with spaces and quotes, raise nothing and are emitted in
    the statement. *)
Lemma unchecked_identifier_reaches_gateway :
  handleCrudOperation (H := sample_host) (H0 := recording_gateway)
    (JStr "select") (JStr "users; DROP TABLE users") JUndefined
    (JObj [("name = 'a b' OR id", JStr "x")]) []
  = (Return (JArr []),
     [queryRawUnsafe
        (JStr "SELECT * FROM users; DROP TABLE users WHERE name = 'a b' OR id = $1")
        [JStr "x"]])
  /\ ~ (exists e,
         crudCall (H := sample_host) (JStr "select") (JStr "users; DROP TABLE users")
           JUndefined (JObj [("name = 'a b' OR id", JStr "x")])
         = Throw e).
Proof.
  split; [reflexivity|]. intros [e He]; discriminate He.
Qed.

(** C2, as the code has it.  No syntax check stands before the
    interpolation: for each of the four operations, every table string and
    every pair of objects, [crudCall] throws nothing; off the fast path
    the table name is part of the statement verbatim, the statement is the
    same for all data and where objects with the same keys, and every value
    bound by the call is one of the supplied values. *)
Theorem identifiers_unchecked_values_bound `{Host}
    (op table : string) (data where_ : list (string * jsval)) :
  toLowerCase op ∈ ["select"; "insert"; "update"; "delete"] ->
  (exists call,
     crudCall (JStr op) (JStr table) (JObj data) (JObj where_) = Return call)
  /\ (String.eqb table "subjects" = false ->
      exists before after,
        forall data' where',
          data'.*1 = data.*1 -> where'.*1 = where_.*1 ->
          exists values,
            crudCall (JStr op) (JStr table) (JObj data') (JObj where')
              = Return (queryRawUnsafe (JStr (before +:+ table +:+ after)) values)
            /\ forall v, v ∈ values -> v ∈ data'.*2 ++ where'.*2).
Proof.
  intros Hop.
  repeat (apply elem_of_cons in Hop as [Hop|Hop]); [ | | | |inversion Hop].
  - split.
    + rewrite crudCall_select by exact Hop. simpl. destruct (String.eqb table "subjects"); eexists; reflexivity.
    + intros Ht.
      exists "SELECT * FROM ", (" " +:+ ("WHERE " +:+ join " AND " (eqTerms 0 (where_.*1)))).
      intros data' where' _ Hw. exists (where'.*2).
      rewrite crudCall_select by exact Hop. simpl. rewrite Ht, Hw.
      split; [reflexivity|]. intros v Hv. apply elem_of_app. right. exact Hv.
  - split.
    + rewrite crudCall_insert by exact Hop. simpl. destruct (String.eqb table "subjects"); eexists; reflexivity.
    + intros Ht.
      exists "INSERT INTO ",
        (" (" +:+ join ", " (data.*1) +:+ ") VALUES ("
         +:+ join ", " (placeholders (data.*1)) +:+ ") RETURNING *").
      intros data' where' Hd _. exists (data'.*2).
      rewrite crudCall_insert by exact Hop. simpl. rewrite Ht, Hd.
      split; [reflexivity|]. intros v Hv. apply elem_of_app. left. exact Hv.
  - split.
    + rewrite crudCall_update by exact Hop. simpl. destruct (String.eqb table "subjects"); eexists; reflexivity.
    + intros Ht.
      exists "UPDATE ",
        (" SET " +:+ join ", " (eqTerms 0 (data.*1)) +:+ " "
         +:+ ("WHERE " +:+ join " AND " (eqTerms (length (data.*1)) (where_.*1)))
         +:+ " RETURNING *").
      intros data' where' Hd Hw. exists (data'.*2 ++ where'.*2).
      rewrite crudCall_update by exact Hop. simpl. rewrite Ht, Hd, Hw.
      split; [reflexivity|]. auto.
  - split.
    + rewrite crudCall_delete by exact Hop. simpl. destruct (String.eqb table "subjects"); eexists; reflexivity.
    + intros Ht.
      exists "DELETE FROM ",
        (" " +:+ ("WHERE " +:+ join " AND " (eqTerms 0 (where_.*1))) +:+ " RETURNING *").
      intros data' where' _ Hw. exists (where'.*2).
      rewrite crudCall_delete by exact Hop. simpl. rewrite Ht, Hw.
      split; [reflexivity|]. intros v Hv. apply elem_of_app. right. exact Hv.
Qed.

Lemma identifiers_unchecked_values_bound_witness :
  (exists call,
     crudCall (H := sample_host) (JStr "SELECT") (JStr "my table;") (JObj [])
       (JObj [("a'b", JStr "x")]) = Return call)
  /\ (String.eqb "my table;" "subjects" = false ->
      exists before after,
        forall data' where' : list (string * jsval),
          data'.*1 = [] -> where'.*1 = ["a'b"] ->
          exists values,
            crudCall (H := sample_host) (JStr "SELECT") (JStr "my table;")
              (JObj data') (JObj where')
              = Return (queryRawUnsafe (JStr (before +:+ "my table;" +:+ after)) values)
            /\ forall v, v ∈ values -> v ∈ data'.*2 ++ where'.*2).
Proof.
  apply (identifiers_unchecked_values_bound (H := sample_host)
           "SELECT" "my table;" [] [("a'b", JStr "x")]).
  apply list_elem_of_here.
Defined.

(** C7. An insert on the fast-path table [subjects] goes to the typed
    [create] with the caller's data in which [createdAt] and [updatedAt]
    are set to the current time when the data has none (and kept when the
    data has a truthy one), every other column being untouched; an insert
    on any other table is the generic statement over exactly the columns of
    the data, in their order, bound to exactly its values, ending in
    [RETURNING *], and the outcome is the gateway's answer to it. *)
Theorem insert_defaults_only_on_fast_path `{Host} {store : Type} `{Gateway store}
    (table where_ : jsval) (data : list (string * jsval)) (st : store) :
  (strict_eq_str table "subjects" = true ->
   exists row,
     handleCrudOperation (JStr "insert") table (JObj data) where_ st
       = prisma (subject_create (JObj [("data", JObj row)])) st
     /\ (lookup_prop "createdAt" data = JUndefined ->
         lookup_prop "createdAt" row = JDate (Date_now 0%nat))
     /\ (lookup_prop "updatedAt" data = JUndefined ->
         exists n, lookup_prop "updatedAt" row = JDate (Date_now n))
     /\ (truthy (lookup_prop "createdAt" data) = true ->
         lookup_prop "createdAt" row = lookup_prop "createdAt" data)
     /\ (truthy (lookup_prop "updatedAt" data) = true ->
         lookup_prop "updatedAt" row = lookup_prop "updatedAt" data)
     /\ forall k, k <> "createdAt" -> k <> "updatedAt" ->
          lookup_prop k row = lookup_prop k data)
  /\ (strict_eq_str table "subjects" = false ->
      handleCrudOperation (JStr "insert") table (JObj data) where_ st
        = prisma
            (queryRawUnsafe
               (JStr ("INSERT INTO " +:+ ToString table +:+ " ("
                      +:+ join ", " (data.*1) +:+ ") VALUES ("
                      +:+ join ", " (placeholders (data.*1)) +:+ ") RETURNING *"))
               (data.*2))
            st
      /\ length (placeholders (data.*1)) = length data
      /\ forall i key value,
           data !! i = Some (key, value) ->
           placeholders (data.*1) !! i = Some ("$" +:+ pretty (i + 1)%nat)
           /\ data.*2 !! i = Some value).
Proof.
  split; intros Htable.
  - eexists. split.
    { apply handleCrudOperation_call.
      rewrite crudCall_insert by reflexivity. rewrite Htable. reflexivity. }
    repeat split.
    + intros Habs. rewrite lookup_set_prop_ne by discriminate.
      rewrite lookup_set_prop_eq. simpl spread. rewrite Habs. reflexivity.
    + intros Habs. rewrite lookup_set_prop_eq. rewrite Habs. simpl. eauto.
    + intros Hgiven. rewrite lookup_set_prop_ne by discriminate.
      rewrite lookup_set_prop_eq. rewrite Hgiven. reflexivity.
    + intros Hgiven. rewrite lookup_set_prop_eq. rewrite Hgiven. reflexivity.
    + intros k Hc Hu. rewrite !lookup_set_prop_ne by assumption. reflexivity.
  - split; [|split].
    + apply handleCrudOperation_call.
      rewrite crudCall_insert by reflexivity. rewrite Htable. reflexivity.
    + unfold placeholders. rewrite length_imap. apply length_fmap.
    + intros i key value Hi. split.
      * unfold placeholders. rewrite list_lookup_imap, list_lookup_fmap, Hi. reflexivity.
      * apply (values_lookup _ _ _ _ Hi).
Qed.

Lemma insert_defaults_only_on_fast_path_witness :
  (exists row,
     handleCrudOperation (H := sample_host) (H0 := recording_gateway)
       (JStr "insert") (JStr "subjects")
       (JObj [("code", JStr "MATH101"); ("name", JStr "Mathematics I")]) JUndefined []
       = @prisma _ recording_gateway (subject_create (JObj [("data", JObj row)])) []
     /\ lookup_prop "createdAt" row = JDate (Date_now (Host := sample_host) 0%nat)
     /\ lookup_prop "code" row = JStr "MATH101")
  /\ handleCrudOperation (H := sample_host) (H0 := recording_gateway)
       (JStr "insert") (JStr "academic_years")
       (JObj [("year", JStr "2024-2025"); ("isCurrent", JBool false)]) JUndefined []
     = @prisma _ recording_gateway
         (queryRawUnsafe
            (JStr "INSERT INTO academic_years (year, isCurrent) VALUES ($1, $2) RETURNING *")
            [JStr "2024-2025"; JBool false]) [].
Proof.
  split.
  - destruct (insert_defaults_only_on_fast_path (H := sample_host)
                (H0 := recording_gateway) (JStr "subjects") JUndefined
                [("code", JStr "MATH101"); ("name", JStr "Mathematics I")] [])
      as [Hfast _].
    destruct (Hfast eq_refl) as (row & Hcall & Hcreated & _ & _ & _ & Hother).
    exists row. split; [exact Hcall|]. split; [exact (Hcreated eq_refl)|].
    apply (Hother "code"); discriminate.
  - destruct (insert_defaults_only_on_fast_path (H := sample_host)
                (H0 := recording_gateway) (JStr "academic_years") JUndefined
                [("year", JStr "2024-2025"); ("isCurrent", JBool false)] [])
      as [_ Hgeneric].
    exact (proj1 (Hgeneric eq_refl)).
Defined.

(** C10. Off the fast path an absent [where] and an empty [where] object
    are told apart: for select, update and delete the absent one gives the
    statement with nothing where the clause goes, the empty one the same
    statement with the bare keyword [WHERE] there, followed by no condition
    (by the end of the text, or directly by [RETURNING *]); the two
    statements differ. *)
Theorem absent_and_empty_where_differ `{Host}
    (table : jsval) (data : list (string * jsval)) :
  strict_eq_str table "subjects" = false ->
  let select_text clause := "SELECT * FROM " +:+ ToString table +:+ " " +:+ clause in
  let update_text clause :=
    "UPDATE " +:+ ToString table +:+ " SET " +:+ join ", " (eqTerms 0 (data.*1))
    +:+ " " +:+ clause +:+ " RETURNING *" in
  let delete_text clause :=
    "DELETE FROM " +:+ ToString table +:+ " " +:+ clause +:+ " RETURNING *" in
  (crudCall (JStr "select") table (JObj data) JUndefined
     = Return (queryRawUnsafe (JStr (select_text "")) [])
   /\ crudCall (JStr "select") table (JObj data) (JObj [])
     = Return (queryRawUnsafe (JStr (select_text "WHERE ")) [])
   /\ select_text "" <> select_text "WHERE ")
  /\ (crudCall (JStr "update") table (JObj data) JUndefined
        = Return (queryRawUnsafe (JStr (update_text "")) (data.*2))
      /\ crudCall (JStr "update") table (JObj data) (JObj [])
        = Return (queryRawUnsafe (JStr (update_text "WHERE ")) (data.*2))
      /\ update_text "" <> update_text "WHERE ")
  /\ (crudCall (JStr "delete") table (JObj data) JUndefined
        = Return (queryRawUnsafe (JStr (delete_text "")) [])
      /\ crudCall (JStr "delete") table (JObj data) (JObj [])
        = Return (queryRawUnsafe (JStr (delete_text "WHERE ")) [])
      /\ delete_text "" <> delete_text "WHERE ").
Proof.
  intros Htable select_text update_text delete_text.
  subst select_text update_text delete_text. cbv beta.
  split; [|split].
  - rewrite !crudCall_select by reflexivity. rewrite Htable.
    split; [reflexivity|]. split; [reflexivity|].
    intros Heq. do 3 apply String.app_inj in Heq. discriminate.
  - rewrite !crudCall_update by reflexivity. rewrite Htable.
    split; [cbn; rewrite app_nil_r; reflexivity|].
    split; [cbn; rewrite app_nil_r; reflexivity|].
    intros Heq. do 5 apply String.app_inj in Heq. discriminate.
  - rewrite !crudCall_delete by reflexivity. rewrite Htable.
    split; [reflexivity|]. split; [reflexivity|].
    intros Heq. do 3 apply String.app_inj in Heq. discriminate.
Qed.

Lemma absent_and_empty_where_differ_witness :
  crudCall (H := sample_host) (JStr "delete") (JStr "notices") (JObj []) JUndefined
    = Return (queryRawUnsafe (JStr "DELETE FROM notices  RETURNING *") [])
  /\ crudCall (H := sample_host) (JStr "delete") (JStr "notices") (JObj []) (JObj [])
    = Return (queryRawUnsafe (JStr "DELETE FROM notices WHERE  RETURNING *") [])
  /\ "DELETE FROM notices  RETURNING *" <> "DELETE FROM notices WHERE  RETURNING *".
Proof.
  exact (proj2 (proj2 (absent_and_empty_where_differ (H := sample_host)
                         (JStr "notices") [] eq_refl))).
Defined.

(** ** The session handler *)

Lemma catalogue_gateway_layout_indifferent : layout_indifferent catalogue_gateway.
Proof.
  intros q1 q2 tokens values st H1 H2. unfold catalogue_gateway.
  rewrite H1, H2. reflexivity.
Qed.

Section SessionFacts.

Context `{Host} {store : Type} `{Gateway store}.

Lemma get_object props k : get (JObj props) k = Return (lookup_prop k props).
Proof. reflexivity. Qed.

Lemma onData_toolsCall id name args (st : store) :
  onData (Some (toolsCallRequest id name args)) st =
    match callTool name args st with
    | (Return result, st') =>
        match JSON_stringify_pretty result with
        | Return text =>
            ([sendResponse id
                (JObj [("content",
                        JArr [JObj [("type", JStr "text"); ("text", text)]])])], st')
        | Throw e =>
            ([sendError id (-32603)
                (if String.eqb (error_message e) "" then "Internal error"
                 else error_message e)], st')
        end
    | (Throw e, st') =>
        ([sendError id (-32603)
            (if String.eqb (error_message e) "" then "Internal error"
             else error_message e)], st')
    end.
Proof.
  unfold onData, handleMessage, toolsCallRequest. cbn.
  unfold toolsCall, bindM, lift, try_catch, ret. cbn.
  destruct (callTool name args st) as [[result|e] st']; [|reflexivity].
  destruct (JSON_stringify_pretty result); reflexivity.
Qed.

(** Only [query_database] passes its result through the serializer: a
    bigint in the result of another tool makes [JSON.stringify] throw, and
    the request is answered with the error -32603. *)
Lemma unserialized_bigint_is_an_error id name args result (st st' : store) :
  callTool name args st = (Return result, st') ->
  has_bigint result = true ->
  onData (Some (toolsCallRequest id name args)) st
    = ([sendError id (-32603) "Do not know how to serialize a BigInt"], st').
Proof.
  intros Hcall Hbig. rewrite onData_toolsCall, Hcall.
  unfold JSON_stringify_pretty. rewrite Hbig. reflexivity.
Qed.

Lemma query_database_result_has_no_bigint args result (st st' : store) :
  callTool (JStr "query_database") args st = (Return result, st') ->
  has_bigint result = false.
Proof.
  unfold callTool. cbn. unfold bindM, lift.
  destruct (get args "query") as [query|e]; [|discriminate].
  destruct (get args "params") as [params|e]; [|discriminate].
  destruct (spread_iterable _) as [values|e]; [|discriminate].
  destruct (prisma _ st) as [[raw|e] st'']; [|discriminate].
  unfold serializeResult.
  pose proof (jsonValue_no_bigint raw) as Hno.
  destruct (jsonValue raw); try discriminate; intros [= <- <-]; exact Hno.
Qed.

End SessionFacts.

(** C6. Malformed JSON is answered with code -32700 and a null id; an
    envelope whose [jsonrpc] is not the literal ["2.0"] with code -32600;
    an envelope with the right tag and a method other than [initialize],
    [tools/list] and [tools/call] with code -32601.  The store is left as
    it was in each case. *)
Theorem failure_classes_have_their_codes `{Host} {store : Type} `{Gateway store}
    (st : store) :
  onData None st
    = ([JObj [("jsonrpc", JStr "2.0"); ("id", JNull);
              ("error", JObj [("code", JNum (-32700));
                              ("message", JStr "Parse error")])]], st)
  /\ (forall envelope,
        strict_eq_str (lookup_prop "jsonrpc" envelope) "2.0" = false ->
        onData (Some (JObj envelope)) st
          = ([JObj [("jsonrpc", JStr "2.0"); ("id", lookup_prop "id" envelope);
                    ("error", JObj [("code", JNum (-32600));
                                    ("message", JStr "Invalid Request")])]], st))
  /\ (forall envelope,
        strict_eq_str (lookup_prop "jsonrpc" envelope) "2.0" = true ->
        strict_eq_str (lookup_prop "method" envelope) "initialize" = false ->
        strict_eq_str (lookup_prop "method" envelope) "tools/list" = false ->
        strict_eq_str (lookup_prop "method" envelope) "tools/call" = false ->
        onData (Some (JObj envelope)) st
          = ([JObj [("jsonrpc", JStr "2.0"); ("id", lookup_prop "id" envelope);
                    ("error", JObj [("code", JNum (-32601));
                                    ("message", JStr "Method not found")])]], st)).
Proof.
  split; [reflexivity|]. split.
  - intros envelope Htag.
    unfold onData, handleMessage, bindM, lift, ret. rewrite !get_object, Htag.
    reflexivity.
  - intros envelope Htag Hinit Hlist Hcall.
    unfold onData, handleMessage, bindM, lift, ret.
    rewrite !get_object, Htag, Hinit, Hlist, Hcall. reflexivity.
Qed.

Lemma failure_classes_have_their_codes_witness :
  @onData sample_host _ recording_gateway
    (Some (JObj [("jsonrpc", JStr "1.0"); ("id", JNum 4); ("method", JStr "initialize")])) []
    = ([JObj [("jsonrpc", JStr "2.0"); ("id", JNum 4);
              ("error", JObj [("code", JNum (-32600));
                              ("message", JStr "Invalid Request")])]], [])
  /\ @onData sample_host _ recording_gateway
       (Some (JObj [("jsonrpc", JStr "2.0"); ("id", JStr "a"); ("method", JStr "ping")])) []
     = ([JObj [("jsonrpc", JStr "2.0"); ("id", JStr "a");
               ("error", JObj [("code", JNum (-32601));
                               ("message", JStr "Method not found")])]], []).
Proof.
  destruct (failure_classes_have_their_codes (H := sample_host)
              (H0 := recording_gateway) []) as (_ & Htag & Hmethod).
  split.
  - exact (Htag [("jsonrpc", JStr "1.0"); ("id", JNum 4); ("method", JStr "initialize")]
             eq_refl).
  - exact (Hmethod [("jsonrpc", JStr "2.0"); ("id", JStr "a"); ("method", JStr "ping")]
             eq_refl eq_refl eq_refl eq_refl).
Defined.

(** C8. When the gateway is indifferent to layout, [list_tables] and
    [get_schema] called with an arguments object that has no (truthy)
    [table] give the same result in every state of the store and leave the
    same store, and so do the two [tools/call] requests.  The two statements
    are the same tokens, laid out with different indentation. *)
Theorem list_tables_is_get_schema_without_table `{Host} {store : Type}
    `{G : Gateway store} :
  layout_indifferent G ->
  sql_tokens list_tables_sql = sql_tokens schema_tables_sql
  /\ forall (args : list (string * jsval)) (any id : jsval) (st : store),
       truthy (lookup_prop "table" args) = false ->
       callTool (JStr "list_tables") any st = callTool (JStr "get_schema") (JObj args) st
       /\ onData (Some (toolsCallRequest id (JStr "list_tables") any)) st
          = onData (Some (toolsCallRequest id (JStr "get_schema") (JObj args))) st.
Proof.
  intros Hlayout. split; [reflexivity|].
  intros args any id st Htable.
  assert (callTool (JStr "list_tables") any st
          = callTool (JStr "get_schema") (JObj args) st) as Hsame.
  { unfold callTool. cbn. unfold bindM, lift. rewrite Htable.
    apply (Hlayout list_tables_sql schema_tables_sql listing_tokens); reflexivity. }
  split; [exact Hsame|].
  rewrite !onData_toolsCall, Hsame. reflexivity.
Qed.

Lemma list_tables_is_get_schema_without_table_witness :
  @callTool sample_host _ catalogue_gateway (JStr "list_tables") JUndefined sample_catalogue
    = @callTool sample_host _ catalogue_gateway (JStr "get_schema") (JObj [])
        sample_catalogue
  /\ @callTool sample_host _ catalogue_gateway (JStr "list_tables") JUndefined
       sample_catalogue
     = (Return (JArr [JObj [("table_name", JStr "classes")];
                      JObj [("table_name", JStr "students")]]),
        sample_catalogue).
Proof.
  split; [|reflexivity].
  exact (proj1 (proj2 (list_tables_is_get_schema_without_table
                         (H := sample_host) (G := catalogue_gateway)
                         catalogue_gateway_layout_indifferent)
                  [] JUndefined JNull sample_catalogue eq_refl)).
Defined.

(** ** One response per chunk *)

Section ResponseFacts.

Context `{Host} {store : Type} `{Gateway store}.

Lemma sendResponse_well_formed id result :
  is_defined result = true -> well_formed_response (sendResponse id result).
Proof.
  intros Hdef. unfold well_formed_response, carries, sendResponse, wire_props.
  cbn. rewrite Hdef. destruct (is_defined id); reflexivity.
Qed.

Lemma sendError_well_formed id code message :
  well_formed_response (sendError id code message).
Proof.
  unfold well_formed_response, carries, sendError, wire_props.
  cbn. destruct (is_defined id); reflexivity.
Qed.

(** Whatever the body of the outer [try] writes, it writes one response,
    well formed, with the [id] of the message. *)
Lemma handleMessage_one_response message (st st' : store) written :
  handleMessage message st = (Return written, st') ->
  exists response,
    written = [response]
    /\ well_formed_response response
    /\ Return (response_id response) = get message "id".
Proof.
  unfold handleMessage, bindM, lift, ret.
  destruct (get message "jsonrpc") as [jsonrpc|e] eqn:Htag; [|discriminate].
  assert (exists id method, get message "id" = Return id
                            /\ get message "method" = Return method) as Hget.
  { destruct message; try discriminate; do 2 eexists; split; reflexivity. }
  destruct Hget as (id & method & Hid & Hmethod). rewrite Hid, Hmethod.
  destruct (negb (strict_eq_str jsonrpc "2.0")).
  { intros [= <- <-]. eexists. split; [reflexivity|].
    split; [apply sendError_well_formed|reflexivity]. }
  destruct (strict_eq_str _ "initialize").
  { intros [= <- <-]. eexists. split; [reflexivity|].
    split; [apply sendResponse_well_formed|]; reflexivity. }
  destruct (strict_eq_str _ "tools/list").
  { intros [= <- <-]. eexists. split; [reflexivity|].
    split; [apply sendResponse_well_formed|]; reflexivity. }
  destruct (strict_eq_str _ "tools/call").
  2:{ intros [= <- <-]. eexists. split; [reflexivity|].
      split; [apply sendError_well_formed|reflexivity]. }
  unfold toolsCall, bindM, lift, try_catch, ret.
  destruct (get message "params") as [params|e]; [|discriminate].
  destruct (destructure_name_arguments params) as [[name args]|e]; [|discriminate].
  rewrite Hid. cbn [fst snd].
  destruct (callTool name args st) as [[result|e] st''].
  - destruct (JSON_stringify_pretty result) as [text|e].
    + intros [= <- <-]. eexists. split; [reflexivity|].
      split; [apply sendResponse_well_formed|]; reflexivity.
    + intros [= <- <-]. eexists. split; [reflexivity|].
      split; [apply sendError_well_formed|reflexivity].
  - intros [= <- <-]. eexists. split; [reflexivity|].
    split; [apply sendError_well_formed|reflexivity].
Qed.

(** Every chunk is answered by exactly one well-formed response. *)
Lemma onData_one_response parsed (st : store) :
  exists response,
    (onData parsed st).1 = [response] /\ well_formed_response response.
Proof.
  unfold onData. destruct parsed as [message|].
  - destruct (handleMessage message st) as [[written|e] st'] eqn:Hbody.
    + destruct (handleMessage_one_response _ _ _ _ Hbody) as (r & -> & Hwf & _).
      exists r. split; [reflexivity|exact Hwf].
    + eexists. split; [reflexivity|apply sendError_well_formed].
  - eexists. split; [reflexivity|apply sendError_well_formed].
Qed.

End ResponseFacts.

(** C5, where the code departs from it.  A [tools/call] request without
    [params] is a request with an id; the destructuring of [message.params]
    throws outside the inner [try], the outer [catch] takes it for a parse
    error, and the one response written carries the id [null] instead of
    the request's. *)
Theorem tools_call_without_params_loses_id `{Host} {store : Type} `{Gateway store}
    (id : jsval) (st : store) :
  onData (Some (JObj [("jsonrpc", JStr "2.0"); ("id", id);
                      ("method", JStr "tools/call")])) st
  = ([JObj [("jsonrpc", JStr "2.0"); ("id", JNull);
            ("error", JObj [("code", JNum (-32700));
                            ("message", JStr "Parse error")])]], st).
Proof. reflexivity. Qed.

(** ** The REST endpoint, for comparison *)

Example executeInsertFallback_adds_timestamps :
  executeInsertFallback "academic_years" (JObj [("year", JStr "2024-2025")])
  = Return (queryRawUnsafe
              (JStr ("INSERT INTO academic_years (year, " +:+ dquote +:+ "createdAt"
                     +:+ dquote +:+ ", " +:+ dquote +:+ "updatedAt" +:+ dquote
                     +:+ ") VALUES ($1, NOW(), NOW()) RETURNING *"))
              [JStr "2024-2025"]).
Proof. reflexivity. Qed.

Example execute_guard_on_absent_where :
  executeDelete "notices" JUndefined
    = Return (Respond400 "Where parameter is required for delete operation")
  /\ executeUpdate "students" (JObj [("classId", JStr "c2")]) JUndefined
    = Return (Respond400 "Data and where parameters are required for update operation").
Proof. split; reflexivity. Qed.

Example execute_guard_passes_empty_where :
  executeDelete "notices" (JObj [])
    = Return (Execute (queryRawUnsafe (JStr "DELETE FROM notices WHERE  RETURNING *") []))
  /\ executeUpdate "students" (JObj [("classId", JStr "c2")]) (JObj [])
    = Return (Execute (queryRawUnsafe
                         (JStr "UPDATE students SET classId = $1 WHERE  RETURNING *")
                         [JStr "c2"])).
Proof. split; reflexivity. Qed.

Example executeUpdate_numbering :
  executeUpdate "students" (JObj [("classId", JStr "c2"); ("name", JNull)])
    (JObj [("rollNumber", JStr "STU001"); ("id", JNum 3)])
  = Return (Execute (queryRawUnsafe
      (JStr "UPDATE students SET classId = $1, name = $2 WHERE rollNumber = $3 AND id = $4 RETURNING *")
      [JStr "c2"; JNull; JStr "STU001"; JNum 3])).
Proof. reflexivity. Qed.


(** * Further properties of the stdio handler *)

Section StdioFacts.

Context `{Host} {store : Type} `{Gateway store}.

Lemma handleMessage_not_an_object message (st : store) :
  (forall props, message <> JObj props) ->
  handleMessage message st
  = match message with
    | JUndefined | JNull => (bind (get message "jsonrpc") (fun _ => Return []), st)
    | _ => (Return [sendError JUndefined (-32600) "Invalid Request"], st)
    end.
Proof.
  intros Hno. destruct message; try reflexivity. destruct (Hno props eq_refl).
Qed.

Lemma handleMessage_returns props (st : store) :
  (is_tools_call props = true ->
   lookup_prop "params" props <> JUndefined /\ lookup_prop "params" props <> JNull) ->
  exists written st', handleMessage (JObj props) st = (Return written, st').
Proof.
  intros Hparams. unfold is_tools_call in Hparams.
  unfold handleMessage, bindM, lift, ret. rewrite !get_object.
  destruct (strict_eq_str (lookup_prop "jsonrpc" props) "2.0"); cbn [negb];
    [|eauto].
  destruct (strict_eq_str _ "initialize"); [eauto|].
  destruct (strict_eq_str _ "tools/list"); [eauto|].
  destruct (strict_eq_str _ "tools/call"); [|eauto].
  destruct (Hparams eq_refl) as [Hu Hn].
  unfold toolsCall, bindM, lift, try_catch, ret. rewrite !get_object.
  assert (exists p, destructure_name_arguments (lookup_prop "params" props) = Return p)
    as [[name args] ->].
  { destruct (lookup_prop "params" props); try congruence; eexists; reflexivity. }
  cbn [fst snd].
  destruct (callTool name args st) as [[result|e] st'']; [|eauto].
  destruct (JSON_stringify_pretty result); eauto.
Qed.

Lemma handleMessage_store_kept props (st : store) :
  is_tools_call props = false ->
  (handleMessage (JObj props) st).2 = st.
Proof.
  unfold is_tools_call. intros Hnot.
  unfold handleMessage, bindM, lift, ret. rewrite !get_object.
  destruct (strict_eq_str (lookup_prop "jsonrpc" props) "2.0"); cbn [negb andb] in *;
    [|reflexivity].
  destruct (strict_eq_str _ "initialize"); [reflexivity|].
  destruct (strict_eq_str _ "tools/list"); [reflexivity|].
  rewrite Hnot. reflexivity.
Qed.


(** What the body of the outer [try] writes: one success or one error with
    the message's id, the error code being one of the three the body uses. *)
Lemma handleMessage_shape message (st st' : store) written :
  handleMessage message st = (Return written, st') ->
  exists id,
    get message "id" = Return id
    /\ ((exists result, is_defined result = true /\ written = [sendResponse id result])
        \/ (exists code text,
              (code = (-32600)%float \/ code = (-32601)%float \/ code = (-32603)%float)
              /\ written = [sendError id code text])).
Proof.
  unfold handleMessage, bindM, lift, ret.
  destruct (get message "jsonrpc") as [jsonrpc|e] eqn:Htag; [|discriminate].
  assert (exists id method, get message "id" = Return id
                            /\ get message "method" = Return method) as Hget.
  { destruct message; try discriminate; do 2 eexists; split; reflexivity. }
  destruct Hget as (id & method & Hid & Hmethod). rewrite Hid, Hmethod.
  intros Hwritten. exists id. split; [reflexivity|]. revert Hwritten.
  destruct (negb (strict_eq_str jsonrpc "2.0")).
  { intros [= <- <-]. right. do 2 eexists. split; [left; reflexivity|reflexivity]. }
  destruct (strict_eq_str _ "initialize").
  { intros [= <- <-]. left. eexists. split; [|reflexivity]. reflexivity. }
  destruct (strict_eq_str _ "tools/list").
  { intros [= <- <-]. left. eexists. split; [|reflexivity]. reflexivity. }
  destruct (strict_eq_str _ "tools/call").
  2:{ intros [= <- <-]. right. do 2 eexists.
      split; [right; left; reflexivity|reflexivity]. }
  unfold toolsCall, bindM, lift, try_catch, ret.
  destruct (get message "params") as [params|e]; [|discriminate].
  destruct (destructure_name_arguments params) as [[name args]|e]; [|discriminate].
  rewrite Hid. cbn [fst snd].
  destruct (callTool name args st) as [[result|e] st''].
  - destruct (JSON_stringify_pretty result) as [text|e].
    + intros [= <- <-]. left. eexists. split; [|reflexivity]. reflexivity.
    + intros [= <- <-]. right. do 2 eexists.
      split; [right; right; reflexivity|reflexivity].
  - intros [= <- <-]. right. do 2 eexists.
    split; [right; right; reflexivity|reflexivity].
Qed.

End StdioFacts.

(** X1. Whatever arrives on stdin, the listener writes exactly one response
    object; it is tagged [jsonrpc: "2.0"], carries on the wire exactly one
    of [result] and [error], and an error has one of the four codes -32700,
    -32600, -32601, -32603. *)
Theorem every_chunk_answered_once `{Host} {store : Type} `{Gateway store}
    (parsed : option jsval) (st : store) :
  exists response props,
    (onData parsed st).1 = [response]
    /\ response = JObj props
    /\ lookup_prop "jsonrpc" props = JStr "2.0"
    /\ well_formed_response response
    /\ (carries "error" response = true ->
        exists code text,
          lookup_prop "error" props
            = JObj [("code", JNum code); ("message", JStr text)]
          /\ (code = (-32700)%float \/ code = (-32600)%float
              \/ code = (-32601)%float \/ code = (-32603)%float)).
Proof.
  assert (forall id code text,
            (code = (-32700)%float \/ code = (-32600)%float
             \/ code = (-32601)%float \/ code = (-32603)%float) ->
            exists response props,
              [sendError id code text] = [response]
              /\ response = JObj props
              /\ lookup_prop "jsonrpc" props = JStr "2.0"
              /\ well_formed_response response
              /\ (carries "error" response = true ->
                  exists code' text',
                    lookup_prop "error" props
                      = JObj [("code", JNum code'); ("message", JStr text')]
                    /\ (code' = (-32700)%float \/ code' = (-32600)%float
                        \/ code' = (-32601)%float \/ code' = (-32603)%float)))
    as Herror.
  { intros id code text Hcode. do 2 eexists. split; [reflexivity|].
    split; [reflexivity|]. split; [reflexivity|].
    split; [apply sendError_well_formed|]. intros _. exists code, text.
    split; [reflexivity|exact Hcode]. }
  unfold onData. destruct parsed as [message|]; [|apply Herror; auto].
  destruct (handleMessage message st) as [[written|e] st'] eqn:Hbody;
    [|apply Herror; auto].
  destruct (handleMessage_shape _ _ _ _ Hbody)
    as (id & _ & [(result & Hdef & ->)|(code & text & Hcode & ->)]).
  - do 2 eexists. split; [reflexivity|]. split; [reflexivity|].
    split; [reflexivity|]. split; [apply sendResponse_well_formed, Hdef|].
    unfold carries, sendResponse, wire_props. cbn. rewrite Hdef.
    destruct (is_defined id); discriminate.
  - apply Herror. tauto.
Qed.

(** X2. An envelope is answered with its own id, read as it stands (absent
    when it has none), on every path except a [tools/call] whose [params]
    is missing or null. *)
Theorem id_echoed_unless_params_missing `{Host} {store : Type} `{Gateway store}
    (envelope : list (string * jsval)) (st : store) :
  (is_tools_call envelope = true ->
   lookup_prop "params" envelope <> JUndefined
   /\ lookup_prop "params" envelope <> JNull) ->
  exists response,
    (onData (Some (JObj envelope)) st).1 = [response]
    /\ response_id response = lookup_prop "id" envelope.
Proof.
  intros Hparams.
  destruct (handleMessage_returns envelope st Hparams) as (written & st' & Hbody).
  destruct (handleMessage_one_response _ _ _ _ Hbody) as (r & -> & _ & Hid).
  exists r. unfold onData. rewrite Hbody. split; [reflexivity|].
  rewrite get_object in Hid. congruence.
Qed.

Lemma id_echoed_unless_params_missing_witness :
  exists response,
    (@onData sample_host _ recording_gateway
       (Some (JObj [("jsonrpc", JStr "2.0"); ("id", JStr "req-9");
                    ("method", JStr "tools/call");
                    ("params", JObj [("name", JStr "list_tables")])])) []).1
    = [response]
    /\ response_id response = JStr "req-9".
Proof.
  apply (id_echoed_unless_params_missing (H := sample_host) (H0 := recording_gateway)
           [("jsonrpc", JStr "2.0"); ("id", JStr "req-9");
            ("method", JStr "tools/call");
            ("params", JObj [("name", JStr "list_tables")])] []).
  intros _. split; discriminate.
Defined.

(** X3. Only a [tools/call] can reach the gateway: any other chunk
    (unparsable text, a value that is not an object, an envelope with
    another tag or another method) leaves the store as it was. *)
Theorem only_tools_call_reaches_the_store `{Host} {store : Type} `{Gateway store}
    (parsed : option jsval) (st : store) :
  (forall envelope, parsed = Some (JObj envelope) -> is_tools_call envelope = false) ->
  (onData parsed st).2 = st.
Proof.
  intros Hnot. unfold onData. destruct parsed as [message|]; [|reflexivity].
  destruct message;
    try (unfold handleMessage, bindM, lift, ret; cbn; reflexivity).
  pose proof (handleMessage_store_kept props st (Hnot props eq_refl)) as Hkept.
  destruct (handleMessage (JObj props) st) as [[written|e] st']; exact Hkept.
Qed.

Lemma only_tools_call_reaches_the_store_witness :
  (@onData sample_host _ recording_gateway
     (Some (JObj [("jsonrpc", JStr "2.0"); ("id", JNum 1);
                  ("method", JStr "tools/list")])) []).2 = [].
Proof.
  apply (only_tools_call_reaches_the_store (H := sample_host) (H0 := recording_gateway)).
  intros envelope [= <-]. reflexivity.
Defined.

(** X4. A [tools/call] naming anything but the four tools is answered with
    the error -32603 and the message [Unknown tool: <name>]; the gateway is
    not called. *)
Theorem unknown_tool_is_an_internal_error `{Host} {store : Type} `{Gateway store}
    (id name args : jsval) (st : store) :
  strict_eq_str name "query_database" = false ->
  strict_eq_str name "execute_crud" = false ->
  strict_eq_str name "get_schema" = false ->
  strict_eq_str name "list_tables" = false ->
  onData (Some (toolsCallRequest id name args)) st
  = ([JObj [("jsonrpc", JStr "2.0"); ("id", id);
            ("error", JObj [("code", JNum (-32603));
                            ("message", JStr ("Unknown tool: " +:+ ToString name))])]],
     st).
Proof.
  intros Hq Hc Hs Hl. rewrite onData_toolsCall.
  unfold callTool. rewrite Hq, Hc, Hs, Hl. reflexivity.
Qed.

Lemma unknown_tool_is_an_internal_error_witness :
  @onData sample_host _ recording_gateway
    (Some (toolsCallRequest (JNum 3) (JStr "drop_database") (JObj []))) []
  = ([JObj [("jsonrpc", JStr "2.0"); ("id", JNum 3);
            ("error", JObj [("code", JNum (-32603));
                            ("message", JStr "Unknown tool: drop_database")])]],
     []).
Proof.
  exact (unknown_tool_is_an_internal_error (H := sample_host) (H0 := recording_gateway)
           (JNum 3) (JStr "drop_database") (JObj []) [] eq_refl eq_refl eq_refl eq_refl).
Defined.

Section CrudDispatchFacts.

Context `{Host}.

Lemma crudCall_unknown op table data where_ :
  toLowerCase op ∉ crud_operations ->
  crudCall (JStr op) table data where_ = Throw (Error ("Unknown operation: " +:+ op)).
Proof.
  intros Hnot. unfold crudCall. cbn [call_toLowerCase bind].
  assert (forall known, known ∈ crud_operations ->
                        String.eqb (toLowerCase op) known = false) as Hne.
  { intros known Hin. apply String.eqb_neq. intros Heq. apply Hnot.
    rewrite Heq. exact Hin. }
  rewrite (Hne "select"), (Hne "insert"), (Hne "update"), (Hne "delete")
    by (unfold crud_operations; repeat constructor).
  reflexivity.
Qed.

Lemma crudCall_depends_on_lower op table data where_ :
  toLowerCase op ∈ crud_operations ->
  crudCall (JStr op) table data where_
  = crudCall (JStr (toLowerCase op)) table data where_.
Proof.
  intros Hin. unfold crud_operations in Hin.
  repeat (apply elem_of_cons in Hin as [Hin|Hin]); [ | | | |inversion Hin].
  - rewrite (crudCall_select op) by exact Hin. rewrite Hin.
    rewrite crudCall_select by reflexivity. reflexivity.
  - rewrite (crudCall_insert op) by exact Hin. rewrite Hin.
    rewrite crudCall_insert by reflexivity. reflexivity.
  - rewrite (crudCall_update op) by exact Hin. rewrite Hin.
    rewrite crudCall_update by reflexivity. reflexivity.
  - rewrite (crudCall_delete op) by exact Hin. rewrite Hin.
    rewrite crudCall_delete by reflexivity. reflexivity.
Qed.

Lemma strict_eq_str_true v lit : strict_eq_str v lit = true -> v = JStr lit.
Proof.
  destruct v; simpl; try discriminate. intros Heq.
  apply String.eqb_eq in Heq. congruence.
Qed.

End CrudDispatchFacts.

(** X5. An operation that is none of select, insert, update, delete (in
    any letter case) makes [handleCrudOperation] throw
    [Unknown operation: <operation>], with the operation spelled as it was
    given; the gateway is not called, and the [execute_crud] tool answers
    with the error -32603 carrying that message. *)
Theorem unknown_operation_is_rejected `{Host} {store : Type} `{Gateway store}
    (op : string) (table data where_ id : jsval) (args : list (string * jsval))
    (st : store) :
  toLowerCase op ∉ crud_operations ->
  lookup_prop "operation" args = JStr op ->
  handleCrudOperation (JStr op) table data where_ st
    = (Throw (Error ("Unknown operation: " +:+ op)), st)
  /\ onData (Some (toolsCallRequest id (JStr "execute_crud") (JObj args))) st
     = ([JObj [("jsonrpc", JStr "2.0"); ("id", id);
               ("error", JObj [("code", JNum (-32603));
                               ("message", JStr ("Unknown operation: " +:+ op))])]],
        st).
Proof.
  intros Hnot Hop. split.
  - apply handleCrudOperation_throw, crudCall_unknown, Hnot.
  - rewrite onData_toolsCall. unfold callTool. cbn.
    unfold bindM, lift. rewrite Hop.
    rewrite crudCall_unknown by exact Hnot. reflexivity.
Qed.

Lemma unknown_operation_is_rejected_witness :
  @handleCrudOperation sample_host _ recording_gateway
    (JStr "Upsert") (JStr "students") (JObj []) JUndefined []
    = (Throw (Error "Unknown operation: Upsert"), [])
  /\ @onData sample_host _ recording_gateway
       (Some (toolsCallRequest (JNum 5) (JStr "execute_crud")
                (JObj [("operation", JStr "Upsert"); ("table", JStr "students")]))) []
     = ([JObj [("jsonrpc", JStr "2.0"); ("id", JNum 5);
               ("error", JObj [("code", JNum (-32603));
                               ("message", JStr "Unknown operation: Upsert")])]],
        []).
Proof.
  assert (toLowerCase "Upsert" ∉ crud_operations) as Hnot.
  { unfold crud_operations. intros Hin.
    repeat (apply elem_of_cons in Hin as [Hin|Hin]; [discriminate Hin|]).
    inversion Hin. }
  split.
  - exact (proj1 (unknown_operation_is_rejected (H := sample_host)
                    (H0 := recording_gateway) "Upsert" (JStr "students") (JObj [])
                    JUndefined JNull [("operation", JStr "Upsert")] [] Hnot eq_refl)).
  - exact (proj2 (unknown_operation_is_rejected (H := sample_host)
                    (H0 := recording_gateway) "Upsert" JNull JNull JNull (JNum 5)
                    [("operation", JStr "Upsert"); ("table", JStr "students")] []
                    Hnot eq_refl)).
Defined.

(** X6. The operation is matched without regard to letter case, the table
    is not: two spellings of one operation give the same gateway call, and
    the call goes to the typed client exactly when the table is the string
    ["subjects"] itself. *)
Theorem operation_case_blind_table_exact `{Host}
    (op1 op2 : string) (table data where_ : jsval) :
  toLowerCase op1 ∈ crud_operations ->
  toLowerCase op2 = toLowerCase op1 ->
  crudCall (JStr op1) table data where_ = crudCall (JStr op2) table data where_
  /\ forall call,
       crudCall (JStr op1) table data where_ = Return call ->
       (is_typed_call call = true <-> table = JStr "subjects").
Proof.
  intros Hin Hsame. split.
  - rewrite (crudCall_depends_on_lower op1) by exact Hin.
    rewrite (crudCall_depends_on_lower op2) by (rewrite Hsame; exact Hin).
    rewrite Hsame. reflexivity.
  - intros call Hcall. unfold crud_operations in Hin.
    assert (strict_eq_str table "subjects" = true <-> table = JStr "subjects") as Hiff.
    { split; [apply strict_eq_str_true|intros ->; reflexivity]. }
    rewrite <- Hiff. clear Hiff.
    repeat (apply elem_of_cons in Hin as [Hin|Hin]); [ | | | |inversion Hin].
    + rewrite crudCall_select in Hcall by exact Hin.
      destruct (strict_eq_str table "subjects").
      * injection Hcall as <-. tauto.
      * destruct (whereClause 0 where_); [|discriminate].
        destruct (whereValues where_); [|discriminate].
        injection Hcall as <-. tauto.
    + rewrite crudCall_insert in Hcall by exact Hin.
      destruct (strict_eq_str table "subjects").
      * destruct (get data "createdAt"); [|discriminate].
        destruct (get data "updatedAt"); [|discriminate].
        injection Hcall as <-. tauto.
      * destruct (Object_keys data); [|discriminate].
        destruct (Object_values data); [|discriminate].
        injection Hcall as <-. tauto.
    + rewrite crudCall_update in Hcall by exact Hin.
      destruct (strict_eq_str table "subjects").
      * injection Hcall as <-. tauto.
      * destruct (Object_keys data) as [keys|]; [|discriminate].
        cbn [bind] in Hcall.
        destruct (whereClause (length keys) where_); [|discriminate].
        destruct (Object_values data); [|discriminate].
        destruct (whereValues where_); [|discriminate].
        injection Hcall as <-. tauto.
    + rewrite crudCall_delete in Hcall by exact Hin.
      destruct (strict_eq_str table "subjects").
      * injection Hcall as <-. tauto.
      * destruct (whereClause 0 where_); [|discriminate].
        destruct (whereValues where_); [|discriminate].
        injection Hcall as <-. tauto.
Qed.

Lemma operation_case_blind_table_exact_witness :
  crudCall (H := sample_host) (JStr "DELETE") (JStr "Subjects") JUndefined
    (JObj [("id", JNum 1)])
  = crudCall (H := sample_host) (JStr "dElEtE") (JStr "Subjects") JUndefined
      (JObj [("id", JNum 1)])
  /\ forall call,
       crudCall (H := sample_host) (JStr "DELETE") (JStr "Subjects") JUndefined
         (JObj [("id", JNum 1)]) = Return call ->
       (is_typed_call call = true <-> JStr "Subjects" = JStr "subjects").
Proof.
  apply (operation_case_blind_table_exact (H := sample_host) "DELETE" "dElEtE").
  - unfold crud_operations. apply list_elem_of_further, list_elem_of_further,
      list_elem_of_further, list_elem_of_here.
  - reflexivity.
Defined.

(** * Further properties of the serializer *)

Section SerializerFixpoint.

Context `{Host}.

Lemma serializeResult_defined result w :
  serializeResult result = Return w -> is_defined w = true /\ w = jsonValue result.
Proof.
  unfold serializeResult. destruct (jsonValue result); try discriminate;
    intros [= <-]; split; reflexivity.
Qed.

Lemma jsonValue_fixed v : jsonValue (jsonValue v) = jsonValue v.
Proof.
  induction v as [| |b|x|z|s|ms|items IH|props IH] using jsval_nested_ind;
    try reflexivity.
  - cbn [jsonValue].
    destruct (PrimFloat.is_finite x) eqn:Efin; [|reflexivity].
    destruct (PrimFloat.is_zero x) eqn:Ezero; [reflexivity|].
    cbn [jsonValue]. rewrite Efin, Ezero. reflexivity.
  - cbn [jsonValue]. f_equal. rewrite map_map.
    induction IH as [|item rest Hitem _ IHrest]; [reflexivity|].
    cbn [map]. f_equal; [|exact IHrest].
    unfold array_item. destruct (is_defined (jsonValue item)) eqn:Edef.
    + rewrite Hitem, Edef. reflexivity.
    + reflexivity.
  - cbn [jsonValue]. f_equal.
    induction IH as [|[k item] rest Hitem _ IHrest]; [reflexivity|].
    cbn [omap list_omap]. cbn [snd] in Hitem.
    destruct (is_defined (jsonValue item)) eqn:Edef.
    + assert (object_prop k (jsonValue item) = Some (k, jsonValue item)) as Hprop
        by (unfold object_prop; rewrite Edef; reflexivity).
      rewrite Hprop. cbn [omap list_omap]. rewrite Hitem, Hprop.
      f_equal. exact IHrest.
    + assert (object_prop k (jsonValue item) = None) as ->
        by (unfold object_prop; rewrite Edef; reflexivity).
      exact IHrest.
Qed.

Lemma jsonValue_defined v : is_defined (jsonValue v) = is_defined v.
Proof.
  destruct v; try reflexivity. cbn [jsonValue].
  destruct (PrimFloat.is_finite x); [destruct (PrimFloat.is_zero x)|]; reflexivity.
Qed.

Lemma serializeRow_as_map props :
  serializeRow props
  = (fun kv => (kv.1, jsonValue kv.2)) <$> List.filter (fun kv => is_defined kv.2) props.
Proof.
  unfold serializeRow. induction props as [|[k item] rest IH]; [reflexivity|].
  cbn [omap list_omap List.filter snd]. unfold object_prop.
  destruct (is_defined item) eqn:Eitem.
  - rewrite jsonValue_defined, Eitem.
    cbn [fmap list_fmap fst snd]. f_equal. exact IH.
  - rewrite jsonValue_defined, Eitem. exact IH.
Qed.

End SerializerFixpoint.

Lemma serializeResult_again `{Host} (result once : jsval) :
  serializeResult result = Return once ->
  serializeResult once = Return once.
Proof.
  intros Hser. destruct (serializeResult_defined _ _ Hser) as [Hdef ->].
  unfold serializeResult in *. rewrite jsonValue_fixed.
  destruct (jsonValue result); try discriminate; reflexivity.
Qed.

(** X7. What the serializer returns is a fixed point of the serializer:
    serializing a result a second time changes nothing, at any depth of
    nesting, and leaves neither a bigint nor an [undefined] result. *)
Theorem serializer_is_idempotent `{Host} (result once : jsval) :
  serializeResult result = Return once ->
  serializeResult once = Return once
  /\ jsonValue once = once
  /\ has_bigint once = false
  /\ is_defined once = true.
Proof.
  intros Hser. split; [exact (serializeResult_again _ _ Hser)|].
  destruct (serializeResult_defined _ _ Hser) as [Hdef ->].
  split; [apply jsonValue_fixed|]. split; [apply jsonValue_no_bigint|exact Hdef].
Qed.

Lemma serializer_is_idempotent_witness :
  serializeResult (H := sample_host)
    (JArr [JObj [("id", JStr "7"); ("at", JStr "T86400000Z"); ("tags", JArr [JNull])]])
  = Return (JArr [JObj [("id", JStr "7"); ("at", JStr "T86400000Z");
                        ("tags", JArr [JNull])]]).
Proof.
  refine (proj1 (serializer_is_idempotent (H := sample_host)
                   (JArr [JObj [("id", JBigInt 7); ("at", JDate 86400000);
                                ("tags", JArr [JUndefined]); ("gone", JUndefined)]])
                   _ _)).
  reflexivity.
Defined.

(** X8. The serializer keeps a row's columns and their order: the columns
    that come back are those whose value is not [undefined], in the order
    of the row, each with the serialized form of its value; a row without
    [undefined] keeps all its column names, and [null], booleans and
    strings come back unchanged. *)
Theorem serializer_keeps_columns `{Host} (props : list (string * jsval)) :
  serializeRow props
    = (fun kv => (kv.1, jsonValue kv.2)) <$> List.filter (fun kv => is_defined kv.2) props
  /\ (Forall (fun kv => is_defined kv.2 = true) props ->
      (serializeRow props).*1 = props.*1
      /\ forall i k v,
           props !! i = Some (k, v) ->
           serializeRow props !! i = Some (k, jsonValue v)
           /\ (v = JNull \/ (exists b, v = JBool b) \/ (exists s, v = JStr s) ->
               serializeRow props !! i = Some (k, v))).
Proof.
  split; [apply serializeRow_as_map|]. intros Hall.
  assert (List.filter (fun kv : string * jsval => is_defined kv.2) props = props) as Hkeep.
  { induction Hall as [|kv rest Hkv _ IH]; [reflexivity|].
    cbn [List.filter]. rewrite Hkv, IH. reflexivity. }
  rewrite serializeRow_as_map, Hkeep. split.
  - rewrite <- list_fmap_compose. reflexivity.
  - intros i k v Hi. rewrite list_lookup_fmap, Hi. split; [reflexivity|].
    intros [->|[[b ->]|[s ->]]]; reflexivity.
Qed.

Lemma serializer_keeps_columns_witness :
  (serializeRow (H := sample_host)
     [("id", JBigInt 7); ("name", JStr "Ada"); ("left", JNull)]).*1
  = ["id"; "name"; "left"]
  /\ serializeRow (H := sample_host)
       [("id", JBigInt 7); ("name", JStr "Ada"); ("left", JNull)] !! 2%nat
     = Some ("left", JNull).
Proof.
  destruct (serializer_keeps_columns (H := sample_host)
              [("id", JBigInt 7); ("name", JStr "Ada"); ("left", JNull)])
    as [_ Hkeeps].
  destruct Hkeeps as [Hnames Hcols].
  { repeat constructor. }
  split; [exact Hnames|].
  exact (proj2 (Hcols 2%nat "left" JNull eq_refl) (or_introl eq_refl)).
Defined.

(** * The tools and the serializer *)

(** X9. Of the four tools only [query_database] serializes its result: when
    the result of a tool holds a bigint, that tool is not [query_database],
    the text of the response cannot be produced, and the request is
    answered with the error -32603 [Do not know how to serialize a BigInt]
    although the gateway has run the call. *)
Theorem bigint_result_outside_query_database_is_an_error
    `{Host} {store : Type} `{Gateway store}
    (id name args result : jsval) (st st' : store) :
  callTool name args st = (Return result, st') ->
  has_bigint result = true ->
  strict_eq_str name "query_database" = false
  /\ onData (Some (toolsCallRequest id name args)) st
     = ([JObj [("jsonrpc", JStr "2.0"); ("id", id);
               ("error", JObj [("code", JNum (-32603));
                               ("message",
                                JStr "Do not know how to serialize a BigInt")])]],
        st').
Proof.
  intros Hcall Hbig. split.
  - destruct (strict_eq_str name "query_database") eqn:Hname; [|reflexivity].
    apply strict_eq_str_true in Hname. subst name.
    rewrite (query_database_result_has_no_bigint _ _ _ _ Hcall) in Hbig.
    discriminate.
  - apply (unserialized_bigint_is_an_error id name args result st st' Hcall Hbig).
Qed.

Lemma bigint_result_outside_query_database_is_an_error_witness :
  @onData sample_host _ counting_gateway
    (Some (toolsCallRequest (JNum 2) (JStr "execute_crud")
             (JObj [("operation", JStr "select"); ("table", JStr "exams")]))) tt
  = ([JObj [("jsonrpc", JStr "2.0"); ("id", JNum 2);
            ("error", JObj [("code", JNum (-32603));
                            ("message",
                             JStr "Do not know how to serialize a BigInt")])]],
     tt).
Proof.
  exact (proj2 (bigint_result_outside_query_database_is_an_error
                  (H := sample_host) (H0 := counting_gateway)
                  (JNum 2) (JStr "execute_crud")
                  (JObj [("operation", JStr "select"); ("table", JStr "exams")])
                  (JArr [JObj [("count", JBigInt 42)]]) tt tt eq_refl eq_refl)).
Defined.

(** X10. Whenever [query_database] gets a result from the gateway, the
    request is answered with a [result] whose one content item is the text
    of the serialized result: the rendering never fails on it. *)
Theorem query_database_result_is_rendered `{Host} {store : Type} `{Gateway store}
    (id args result : jsval) (st st' : store) :
  callTool (JStr "query_database") args st = (Return result, st') ->
  onData (Some (toolsCallRequest id (JStr "query_database") args)) st
  = ([JObj [("jsonrpc", JStr "2.0"); ("id", id);
            ("result",
             JObj [("content",
                    JArr [JObj [("type", JStr "text");
                                ("text", JStr (JSON_text result))]])])]],
     st')
  /\ serializeResult result = Return result.
Proof.
  intros Hcall.
  pose proof (query_database_result_has_no_bigint _ _ _ _ Hcall) as Hno.
  assert (exists raw, serializeResult raw = Return result) as [raw Hraw].
  { revert Hcall. unfold callTool. cbn. unfold bindM, lift.
    destruct (get args "query") as [query|e]; [|discriminate].
    destruct (get args "params") as [params|e]; [|discriminate].
    destruct (spread_iterable _) as [values|e]; [|discriminate].
    destruct (prisma _ st) as [[raw|e] st'']; [|discriminate].
    intros Hser. exists raw.
    destruct (serializeResult raw); [|discriminate]. congruence. }
  split; [|exact (serializeResult_again _ _ Hraw)].
  destruct (serializeResult_defined _ _ Hraw) as [Hdef _].
  rewrite onData_toolsCall, Hcall. unfold JSON_stringify_pretty. rewrite Hno.
  destruct result; try discriminate; reflexivity.
Qed.

Lemma query_database_result_is_rendered_witness :
  @onData sample_host _ counting_gateway
    (Some (toolsCallRequest (JNum 2) (JStr "query_database")
             (JObj [("query", JStr "SELECT count(*) FROM exams")]))) tt
  = ([JObj [("jsonrpc", JStr "2.0"); ("id", JNum 2);
            ("result",
             JObj [("content",
                    JArr [JObj [("type", JStr "text");
                                ("text",
                                 JStr (JSON_text (Host := sample_host)
                                         (JArr [JObj [("count", JStr "42")]])))]])])]],
     tt).
Proof.
  exact (proj1 (query_database_result_is_rendered
                  (H := sample_host) (H0 := counting_gateway)
                  (JNum 2) (JObj [("query", JStr "SELECT count(*) FROM exams")])
                  (JArr [JObj [("count", JStr "42")]]) tt tt eq_refl)).
Defined.

(** * The REST endpoint and [handleCrudOperation] *)

Lemma append_assoc (a b c : string) : (a +:+ b) +:+ c = a +:+ (b +:+ c).
Proof.
  induction a as [|ch a IH]; [reflexivity|].
  change (String ch ((a +:+ b) +:+ c) = String ch (a +:+ (b +:+ c))).
  rewrite IH. reflexivity.
Qed.







(** * The query builder *)

Lemma lookup_prop_member (props : list (string * jsval)) (k : string) (v : jsval) :
  NoDup (props.*1) -> (k, v) ∈ props -> lookup_prop k props = v.
Proof.
  induction props as [|[k' v'] rest IH]; intros Hnodup Hin; [inversion Hin|].
  cbn in Hnodup. apply NoDup_cons in Hnodup as [Hfresh Hrest].
  cbn [lookup_prop]. apply elem_of_cons in Hin as [[= -> ->]|Hin].
  - rewrite String.eqb_refl. reflexivity.
  - destruct (String.eqb k k') eqn:E.
    + apply String.eqb_eq in E. subst k'. exfalso. apply Hfresh.
      apply list_elem_of_fmap. exists (k, v). split; [reflexivity|exact Hin].
    + apply IH; assumption.
Qed.

(** The callback run over the keys numbers the conditions from
    [paramIndex] on and pushes the values in the order of the keys. *)
Lemma builderConditions_run (all some : list (string * jsval))
    (params : list jsval) (paramIndex : nat) :
  NoDup (all.*1) ->
  (forall kv, kv ∈ some -> kv ∈ all) ->
  builderConditions (JObj all) (some.*1) params paramIndex
  = (imap (fun i key => key +:+ " = $" +:+ pretty (paramIndex + i)%nat) (some.*1),
     params ++ some.*2,
     (paramIndex + length some)%nat).
Proof.
  intros Hnodup. revert params paramIndex.
  induction some as [|[k v] rest IH]; intros params paramIndex Hsub.
  - cbn. rewrite app_nil_r, Nat.add_0_r. reflexivity.
  - cbn [fmap list_fmap fst snd builderConditions].
    rewrite IH by (intros kv Hkv; apply Hsub; right; exact Hkv).
    unfold get_own. cbn [ownEntries].
    rewrite (lookup_prop_member all k v Hnodup) by (apply Hsub; left).
    cbn [imap length]. rewrite Nat.add_0_r, <- app_assoc. cbn [app].
    f_equal; [f_equal|lia].
    f_equal. apply imap_ext. intros i key _. cbn.
    rewrite ?Nat.add_succ_r. reflexivity.
Qed.

Lemma builderConditions_whole (C : list (string * jsval)) :
  NoDup (C.*1) ->
  builderConditions (JObj C) (C.*1) [] 1
  = (eqTerms 0 (C.*1), C.*2, S (length C)).
Proof.
  intros Hnodup. rewrite (builderConditions_run C C) by auto.
  cbn [app]. unfold eqTerms. f_equal. f_equal.
  apply imap_ext. intros i key _. cbn.
  replace (S i) with (i + 1)%nat by lia. reflexivity.
Qed.

(** X12. With the default columns and neither order nor limit, the query
    builder arrives, for a where object with at least one key, at the
    statement and the values that [handleCrudOperation] sends for a select
    on the same table off its fast path: its counter numbers the
    conditions as the positions of the keys do. *)
Theorem builder_where_is_the_select_of_crud `{Host} (parseInt : jsval -> float)
    (table : jsval) (C : list (string * jsval)) :
  NoDup (C.*1) ->
  C <> [] ->
  strict_eq_str table "subjects" = false ->
  exists text values,
    builderQuery parseInt table (JArr [JStr "*"]) (JObj C) JUndefined JUndefined
      = Return (text, values)
    /\ crudCall (JStr "select") table JUndefined (JObj C)
       = Return (queryRawUnsafe (JStr text) values)
    /\ values = C.*2.
Proof.
  intros Hnodup Hne Htable. do 2 eexists. split; [|split].
  - unfold builderQuery. cbn [call_join bind truthy Object_keys ownEntries].
    assert ((0 <? length (C.*1))%nat = true) as ->.
    { destruct C; [congruence|reflexivity]. }
    cbn [andb]. rewrite (builderConditions_whole C Hnodup). reflexivity.
  - rewrite crudCall_select by reflexivity. rewrite Htable. cbn.
    rewrite !append_assoc. reflexivity.
  - reflexivity.
Qed.

Lemma builder_where_is_the_select_of_crud_witness :
  exists text values,
    builderQuery (H := sample_host) (fun _ => 10%float) (JStr "students")
      (JArr [JStr "*"]) (JObj [("grade", JStr "A"); ("section", JStr "B")])
      JUndefined JUndefined
      = Return (text, values)
    /\ crudCall (H := sample_host) (JStr "select") (JStr "students") JUndefined
         (JObj [("grade", JStr "A"); ("section", JStr "B")])
       = Return (queryRawUnsafe (JStr text) values)
    /\ values = [JStr "A"; JStr "B"].
Proof.
  apply (builder_where_is_the_select_of_crud (H := sample_host) (fun _ => 10%float)
           (JStr "students") [("grade", JStr "A"); ("section", JStr "B")]).
  - apply NoDup_cons. split; [|apply NoDup_singleton].
    intros Hin. apply list_elem_of_singleton in Hin. discriminate Hin.
  - discriminate.
  - reflexivity.
Defined.

(** X13. The query builder leaves the [WHERE] out for a where that is
    absent or has no key (the empty object among them): the statement and
    the parameters are those of the request without a where, whatever the
    columns, order and limit.  [handleCrudOperation] instead sends a bare
    [WHERE] for the empty object. *)
Theorem builder_leaves_out_an_empty_where `{Host} (parseInt : jsval -> float)
    (table columns where_ limit orderBy : jsval) :
  truthy where_ = false \/ Object_keys where_ = Return [] ->
  builderQuery parseInt table columns where_ limit orderBy
  = builderQuery parseInt table columns JUndefined limit orderBy
  /\ forall text values,
       builderQuery parseInt table columns where_ limit orderBy = Return (text, values) ->
       values = [].
Proof.
  intros Hempty.
  assert (builderQuery parseInt table columns where_ limit orderBy
          = builderQuery parseInt table columns JUndefined limit orderBy) as Hsame.
  { unfold builderQuery. destruct (call_join "columns" columns ", "); [|reflexivity].
    cbn [bind]. destruct Hempty as [Hfalsy|Hkeys].
    - rewrite Hfalsy. reflexivity.
    - rewrite Hkeys. destruct (truthy where_); reflexivity. }
  split; [exact Hsame|].
  intros text values. rewrite Hsame. unfold builderQuery.
  destruct (call_join "columns" columns ", "); [|discriminate].
  cbn. intros [= _ <-]. reflexivity.
Qed.

Lemma builder_leaves_out_an_empty_where_witness :
  builderQuery (H := sample_host) (fun _ => 10%float) (JStr "students")
    (JArr [JStr "id"; JStr "name"]) (JObj []) (JNum 10) (JStr "name")
  = Return ("SELECT id, name FROM students ORDER BY name LIMIT 0", []).
Proof.
  rewrite (proj1 (builder_leaves_out_an_empty_where (H := sample_host)
                    (fun _ => 10%float) (JStr "students")
                    (JArr [JStr "id"; JStr "name"]) (JObj []) (JNum 10) (JStr "name")
                    (or_intror eq_refl))).
  reflexivity.
Defined.

(** * The endpoint [/api/mcp/execute] *)





Section ExecuteFacts.

Context `{Host} {store : Type} `{Gateway store}.

Lemma truthy_JStr s : truthy (JStr s) = true <-> s <> "".
Proof.
  cbn. destruct (String.eqb s "") eqn:E.
  - apply String.eqb_eq in E. split; [discriminate|congruence].
  - apply String.eqb_neq in E. split; auto.
Qed.


End ExecuteFacts.



(** * The replies of the REST endpoints *)

Ltac reply_done :=
  cbn; split;
  [ unfold reply_sound; cbn; first [ left; split; reflexivity
                                   | right; split; [auto|split; [reflexivity|eauto]] ]
  | intros Hstatus; first [ reflexivity | discriminate Hstatus ] ].

Section ReplyFacts.

Context `{Host} {store : Type} `{Gateway store}.
Variable parseInt : jsval -> float.
Variable toUpperCase : string -> string.

Lemma mcpQuery_sound : sound_handler mcpQuery.
Proof.
  intros reqBody st. unfold mcpQuery, answering, bindM, lift, ret.
  destruct (destructurable "req.body" "query" reqBody) as [source|e]; [|reply_done].
  destruct (get source "query") as [query|e]; [|reply_done].
  destruct (get source "params") as [given|e]; [|reply_done].
  destruct (negb (truthy query)); [reply_done|].
  destruct (spread_iterable _) as [values|e]; [|reply_done].
  destruct (prisma _ st) as [[result|e] st']; [|reply_done].
  destruct (serializeResult result); reply_done.
Qed.

Lemma langflowQuery_sound : sound_handler langflowQuery.
Proof.
  intros reqBody st. unfold langflowQuery, answering, bindM, lift, ret.
  destruct (destructurable "req.body" "query" reqBody) as [source|e]; [|reply_done].
  destruct (get source "query") as [query|e]; [|reply_done].
  destruct (get source "params") as [given|e]; [|reply_done].
  destruct (negb (truthy query)); [reply_done|].
  destruct (spread_iterable _) as [values|e]; [|reply_done].
  destruct (prisma _ st) as [[result|e] st']; [|reply_done].
  destruct (serializeResult result) as [serialized|e]; [|reply_done].
  destruct (get_length serialized); reply_done.
Qed.

Lemma queryBuilder_sound : sound_handler (queryBuilder parseInt).
Proof.
  intros reqBody st. unfold queryBuilder, answering, bindM, lift, ret.
  destruct (destructurable "req.body" "table" reqBody) as [source|e]; [|reply_done].
  destruct (get source "table") as [table|e]; [|reply_done].
  destruct (get source "columns") as [columns|e]; [|reply_done].
  destruct (get source "where") as [where_|e]; [|reply_done].
  destruct (get source "limit") as [limit|e]; [|reply_done].
  destruct (get source "orderBy") as [orderBy|e]; [|reply_done].
  destruct (negb (truthy table)); [reply_done|].
  destruct (builderQuery _ _ _ _ _ _) as [built|e]; [|reply_done].
  destruct (prisma _ st) as [[result|e] st']; [|reply_done].
  destruct (serializeResult result) as [serialized|e]; [|reply_done].
  destruct (get_length serialized); reply_done.
Qed.

Lemma mcpExecute_sound : sound_handler mcpExecute.
Proof.
  intros reqBody st. unfold mcpExecute.
  destruct (destructurable "req.body" "operation" reqBody) as [source|e]; [|reply_done].
  destruct (executePlan _ _ _ _) as [[[text|call] reads]|e]; try reply_done.
  destruct (prisma call st) as [[result|e] st']; [|reply_done].
  destruct (serializeResult result); reply_done.
Qed.

Lemma langflowCrud_sound : sound_handler (langflowCrud toUpperCase).
Proof.
  intros reqBody st. unfold langflowCrud.
  destruct (destructurable "req.body" "operation" reqBody) as [source|e]; [|reply_done].
  destruct (negb (truthy (read source "operation")) || negb (truthy (read source "table")));
    [reply_done|].
  destruct (handleCrudOperation _ _ _ _ st) as [[result|e] st']; [|reply_done].
  destruct (serializeResult result) as [serialized|e]; [|reply_done].
  cbn [bind]. destruct (call_toUpperCase _ _); reply_done.
Qed.

End ReplyFacts.

(** X15. The five REST handlers that reach the database always reply, and
    the reply is sound: status 200 with [success: true], or status 400 or
    500 with [success: false] and an error text; a throw anywhere in the
    handler becomes a 500 reply, and a 400 reply is given without the
    gateway having been called. *)
Theorem rest_replies_are_sound `{Host} {store : Type} `{Gateway store}
    (parseInt : jsval -> float) (toUpperCase : string -> string) :
  sound_handler mcpQuery
  /\ sound_handler langflowQuery
  /\ sound_handler (queryBuilder parseInt)
  /\ sound_handler mcpExecute
  /\ sound_handler (langflowCrud toUpperCase).
Proof.
  split; [apply mcpQuery_sound|].
  split; [apply langflowQuery_sound|].
  split; [apply queryBuilder_sound|].
  split; [apply mcpExecute_sound|apply langflowCrud_sound].
Qed.

(** X16. [/api/mcp/execute] answers 400, without calling the gateway, an
    insert without data, an update without data or without where, a delete
    without where, and an operation that is none of the four; without
    means absent or falsy, so the empty object passes. *)
Theorem execute_guards_answer_400 `{Host} {store : Type} `{Gateway store}
    (reqBody : list (string * jsval)) (op table : string) (st : store) :
  lookup_prop "operation" reqBody = JStr op ->
  lookup_prop "table" reqBody = JStr table ->
  op <> "" -> table <> "" ->
  (toLowerCase op = "insert" /\ truthy (lookup_prop "data" reqBody) = false)
  \/ (toLowerCase op = "update"
      /\ (truthy (lookup_prop "data" reqBody) = false
          \/ truthy (lookup_prop "where" reqBody) = false))
  \/ (toLowerCase op = "delete" /\ truthy (lookup_prop "where" reqBody) = false)
  \/ toLowerCase op ∉ crud_operations ->
  exists text,
    mcpExecute (JObj reqBody) st
    = (res_status_json 400 (JObj [("success", JBool false); ("error", JStr text)]), st).
Proof.
  intros Hop Htable Hop_ne Htable_ne Hcase.
  unfold mcpExecute. cbn [destructurable read]. rewrite Hop, Htable.
  unfold executePlan.
  assert (truthy (JStr op) = true) as -> by (apply truthy_JStr, Hop_ne).
  assert (truthy (JStr table) = true) as -> by (apply truthy_JStr, Htable_ne).
  cbn [negb orb call_toLowerCase_of bind].
  destruct Hcase as [[Hlow Hdata]|[[Hlow Hmiss]|[[Hlow Hwhere]|Hnot]]].
  - rewrite Hlow. cbn [String.eqb Ascii.eqb Bool.eqb].
    unfold executeInsert. rewrite Hdata. eexists. reflexivity.
  - rewrite Hlow. cbn [String.eqb Ascii.eqb Bool.eqb].
    unfold executeUpdate.
    assert (negb (truthy (lookup_prop "data" reqBody))
            || negb (truthy (lookup_prop "where" reqBody)) = true) as ->.
    { destruct Hmiss as [-> | ->]; [reflexivity|apply orb_true_r]. }
    eexists. reflexivity.
  - rewrite Hlow. cbn [String.eqb Ascii.eqb Bool.eqb].
    unfold executeDelete. rewrite Hwhere. eexists. reflexivity.
  - assert (forall known, known ∈ crud_operations ->
                          String.eqb (toLowerCase op) known = false) as Hne.
    { intros known Hin. apply String.eqb_neq. intros Heq. apply Hnot.
      rewrite Heq. exact Hin. }
    rewrite (Hne "select"), (Hne "insert"), (Hne "update"), (Hne "delete")
      by (unfold crud_operations; repeat constructor).
    eexists. reflexivity.
Qed.

Lemma execute_guards_answer_400_witness :
  exists text,
    @mcpExecute sample_host _ recording_gateway
      (JObj [("operation", JStr "DELETE"); ("table", JStr "Notices")]) []
    = (res_status_json 400 (JObj [("success", JBool false); ("error", JStr text)]), []).
Proof.
  apply (execute_guards_answer_400 (H := sample_host) (H0 := recording_gateway)
           [("operation", JStr "DELETE"); ("table", JStr "Notices")]
           "DELETE" "Notices" []);
    try reflexivity; try discriminate.
  right. right. left. split; reflexivity.
Defined.

(** X17. A [params] that is falsy without being absent or a string
    ([null], [false], [0]) is read as "no parameters" by the
    [query_database] tool, whose [args.params || []] runs the query with
    no values, but not by [/api/mcp/query], whose default applies to an
    absent [params] only: it replies 500 and the gateway is not called. *)
Theorem falsy_params_tool_runs_rest_fails `{Host} {store : Type} `{Gateway store}
    (reqBody : list (string * jsval)) (st : store) :
  truthy (lookup_prop "query" reqBody) = true ->
  truthy (lookup_prop "params" reqBody) = false ->
  lookup_prop "params" reqBody <> JUndefined ->
  (forall s, lookup_prop "params" reqBody <> JStr s) ->
  callTool (JStr "query_database") (JObj reqBody) st
    = bindM (prisma (queryRawUnsafe (lookup_prop "query" reqBody) []))
        (fun result => lift (serializeResult result)) st
  /\ exists text,
       mcpQuery (JObj reqBody) st
       = (res_status_json 500
            (JObj [("success", JBool false); ("error", JStr text);
                   ("timestamp", timestamp 0)]), st).
Proof.
  intros Hquery Hfalsy Hgiven Hnot_text. split.
  - unfold callTool. cbn. unfold bindM, lift, js_or. rewrite Hfalsy. reflexivity.
  - unfold mcpQuery, answering, bindM, lift, ret. cbn. rewrite Hquery. cbn [negb].
    destruct (lookup_prop "params" reqBody) eqn:Hp; try congruence;
      try discriminate Hfalsy; try (exfalso; exact (Hnot_text _ eq_refl));
      cbn; eexists; reflexivity.
Qed.

Lemma falsy_params_tool_runs_rest_fails_witness :
  @callTool sample_host _ recording_gateway (JStr "query_database")
    (JObj [("query", JStr "SELECT 1"); ("params", JNull)]) []
    = (Return (JArr []), [queryRawUnsafe (JStr "SELECT 1") []])
  /\ exists text,
       @mcpQuery sample_host _ recording_gateway
         (JObj [("query", JStr "SELECT 1"); ("params", JNull)]) []
       = (res_status_json 500
            (JObj [("success", JBool false); ("error", JStr text);
                   ("timestamp", timestamp (H := sample_host) 0)]), []).
Proof.
  destruct (falsy_params_tool_runs_rest_fails (H := sample_host)
              (H0 := recording_gateway)
              [("query", JStr "SELECT 1"); ("params", JNull)] [])
    as [Htool Hrest]; try reflexivity; try discriminate.
  split; [exact Htool|exact Hrest].
Defined.

(** * The JSON-RPC endpoint [/mcp] *)

Section McpPostFacts.

Context `{Host} {store : Type} `{G : Gateway store}.

Lemma callTool_unfold name args :
  callTool name args
  = callToolWith schema_columns_sql schema_tables_sql list_tables_sql name args.
Proof. reflexivity. Qed.

(** Apart from a [get_schema] of one table, the [switch] of [/mcp] and the
    one of the stdio server send statements with the same tokens. *)
Lemma callToolWith_http name args (st : store) :
  layout_indifferent G ->
  (strict_eq_str name "get_schema" = true ->
   forall table, get args "table" = Return table -> truthy table = false) ->
  callToolWith http_schema_columns_sql http_schema_tables_sql http_list_tables_sql
    name args st
  = callTool name args st.
Proof.
  intros Hlayout Hschema. rewrite callTool_unfold. unfold callToolWith.
  destruct (strict_eq_str name "query_database"); [reflexivity|].
  destruct (strict_eq_str name "execute_crud"); [reflexivity|].
  destruct (strict_eq_str name "get_schema").
  - unfold bindM, lift. destruct (get args "table") as [table|e] eqn:Ht; [|reflexivity].
    rewrite (Hschema eq_refl table eq_refl).
    apply (Hlayout _ _ listing_tokens); reflexivity.
  - destruct (strict_eq_str name "list_tables"); [|reflexivity].
    apply (Hlayout _ _ listing_tokens); reflexivity.
Qed.

Lemma mcpPost_toolsCall id name args (st : store) :
  mcpPost (toolsCallRequest id name args) st
  = match callToolWith http_schema_columns_sql http_schema_tables_sql
            http_list_tables_sql name args st with
    | (Return result, st') =>
        match JSON_stringify_pretty result with
        | Return text =>
            (Return
               (res_json
                  (sendResponse id
                     (JObj [("content",
                             JArr [JObj [("type", JStr "text"); ("text", text)]])]))),
             st')
        | Throw e =>
            (Return (res_json
                       (sendError id (-32603)
                          (if String.eqb (error_message e) "" then "Internal error"
                           else error_message e))), st')
        end
    | (Throw e, st') =>
        (Return (res_json
                   (sendError id (-32603)
                      (if String.eqb (error_message e) "" then "Internal error"
                       else error_message e))), st')
    end.
Proof.
  unfold mcpPost, toolsCallRequest. cbn.
  unfold bindM, lift, try_catch, ret. cbn.
  destruct (callToolWith _ _ _ name args st) as [[result|e] st']; [|reflexivity].
  destruct (JSON_stringify_pretty result); reflexivity.
Qed.

End McpPostFacts.

(** X18. [/mcp] replies to every JSON object it is posted, and the reply
    carries the [id] of the request as it stands, the tag
    [jsonrpc: "2.0"] and exactly one of [result] and [error]; a
    [tools/call] without [params] is among them: it is answered with
    status 500, code -32603 and its own id, the gateway untouched. *)
Theorem mcp_post_echoes_the_id `{Host} {store : Type} `{Gateway store}
    (reqBody : list (string * jsval)) (st : store) :
  (exists reply st' props,
     mcpPost (JObj reqBody) st = (Return reply, st')
     /\ body reply = JObj props
     /\ lookup_prop "jsonrpc" props = JStr "2.0"
     /\ lookup_prop "id" props = lookup_prop "id" reqBody
     /\ well_formed_response (body reply))
  /\ (is_tools_call reqBody = true ->
      lookup_prop "params" reqBody = JUndefined \/ lookup_prop "params" reqBody = JNull ->
      mcpPost (JObj reqBody) st
      = (Return
           (res_status_json 500
              (JObj [("jsonrpc", JStr "2.0"); ("id", lookup_prop "id" reqBody);
                     ("error", JObj [("code", JNum (-32603));
                                     ("message", JStr "Internal error")])])),
         st)).
Proof.
  assert (forall id code text,
            well_formed_response
              (JObj [("jsonrpc", JStr "2.0"); ("id", id);
                     ("error", JObj [("code", JNum code); ("message", JStr text)])]))
    as Herror by (intros; apply sendError_well_formed).
  assert (forall id result, is_defined result = true ->
            well_formed_response
              (JObj [("jsonrpc", JStr "2.0"); ("id", id); ("result", result)]))
    as Hresult by (intros; apply sendResponse_well_formed; assumption).
  split.
  - unfold mcpPost, bindM, lift, ret. cbn [destructurable read get].
    destruct (negb (strict_eq_str (lookup_prop "jsonrpc" reqBody) "2.0")).
    { do 3 eexists. repeat split; try reflexivity. apply Herror. }
    destruct (strict_eq_str _ "initialize").
    { do 3 eexists. repeat split; try reflexivity. apply Hresult. reflexivity. }
    destruct (strict_eq_str _ "tools/list").
    { do 3 eexists. repeat split; try reflexivity. apply Hresult. reflexivity. }
    destruct (strict_eq_str _ "tools/call").
    2:{ do 3 eexists. repeat split; try reflexivity. apply Herror. }
    destruct (destructurable "params" "name" (lookup_prop "params" reqBody))
      as [callee|e].
    2:{ do 3 eexists. repeat split; try reflexivity. apply Herror. }
    unfold try_catch, bindM, lift, ret.
    destruct (callToolWith _ _ _ _ _ st) as [[result|e] st''].
    + destruct (JSON_stringify_pretty result) as [text|e].
      * do 3 eexists. repeat split; try reflexivity. apply Hresult. reflexivity.
      * do 3 eexists. repeat split; try reflexivity. apply Herror.
    + do 3 eexists. repeat split; try reflexivity. apply Herror.
  - unfold is_tools_call. intros Hcall Hparams.
    apply andb_true_iff in Hcall as [Htag Hmethod].
    unfold mcpPost, bindM, lift, ret. cbn [destructurable read get].
    rewrite Htag. cbn [negb].
    apply strict_eq_str_true in Hmethod. rewrite Hmethod. cbn.
    destruct Hparams as [-> | ->]; reflexivity.
Qed.

(** X19. For a [tools/call] the body of the reply of [/mcp] is the very
    response the stdio server writes, and the store ends the same, when
    the gateway disregards layout: the two servers differ in the
    indentation of their statements only.  (The statement of [get_schema]
    for one table holds a [$1], which [sql_tokens] does not read; that
    case is left aside.) *)
Theorem mcp_post_is_the_stdio_tools_call `{Host} {store : Type} `{G : Gateway store}
    (id name args : jsval) (st : store) :
  layout_indifferent G ->
  (strict_eq_str name "get_schema" = true ->
   forall table, get args "table" = Return table -> truthy table = false) ->
  exists response st',
    onData (Some (toolsCallRequest id name args)) st = ([response], st')
    /\ mcpPost (toolsCallRequest id name args) st = (Return (res_json response), st').
Proof.
  intros Hlayout Hschema.
  rewrite mcpPost_toolsCall, onData_toolsCall.
  rewrite (callToolWith_http name args st Hlayout Hschema).
  destruct (callTool name args st) as [[result|e] st']; [|eauto].
  destruct (JSON_stringify_pretty result); eauto.
Qed.

Lemma mcp_post_is_the_stdio_tools_call_witness :
  exists response st',
    @onData sample_host _ catalogue_gateway
      (Some (toolsCallRequest (JNum 8) (JStr "list_tables") (JObj []))) sample_catalogue
    = ([response], st')
    /\ @mcpPost sample_host _ catalogue_gateway
         (toolsCallRequest (JNum 8) (JStr "list_tables") (JObj [])) sample_catalogue
       = (Return (res_json response), st').
Proof.
  apply (mcp_post_is_the_stdio_tools_call (H := sample_host) (G := catalogue_gateway)
           (JNum 8) (JStr "list_tables") (JObj []) sample_catalogue).
  - intros q1 q2 tokens values st H1 H2. unfold catalogue_gateway.
    rewrite H1, H2. reflexivity.
  - discriminate.
Defined.

(** * One call, two transports *)

(** X20. The same [operation], [table], [data] and [where], posted to
    [/api/langflow/crud] and sent as the arguments of [execute_crud] to the
    stdio server, reach the gateway alike, but are answered differently:
    the endpoint replies 200 with the result serialized, no [bigint] left
    in it, whereas the stdio server prints the result as it is and answers
    a result holding a [bigint] with the error -32603. *)
Theorem crud_over_rest_serializes_stdio_does_not
    `{Host} {store : Type} `{Gateway store}
    (toUpperCase : string -> string)
    (id : jsval) (props : list (string * jsval)) (op : string) (result : jsval)
    (st st' : store) :
  lookup_prop "operation" props = JStr op ->
  op <> "" ->
  truthy (lookup_prop "table" props) = true ->
  handleCrudOperation (JStr op) (lookup_prop "table" props)
    (lookup_prop "data" props) (lookup_prop "where" props) st = (Return result, st') ->
  is_defined result = true ->
  (exists reads,
     langflowCrud toUpperCase (JObj props) st
     = (res_json
          (JObj [("success", JBool true);
                 ("data", jsonValue result);
                 ("message",
                  JStr (toUpperCase op +:+ " operation on "
                        +:+ ToString (lookup_prop "table" props)
                        +:+ " completed successfully"));
                 ("operation", JStr op);
                 ("table", lookup_prop "table" props);
                 ("timestamp", timestamp reads)]), st'))
  /\ has_bigint (jsonValue result) = false
  /\ (has_bigint result = true ->
      onData (Some (toolsCallRequest id (JStr "execute_crud") (JObj props))) st
      = ([sendError id (-32603) "Do not know how to serialize a BigInt"], st')).
Proof.
  intros Hop Hne Htable Hcrud Hdef. split; [|split].
  - eexists. unfold langflowCrud. cbn [destructurable read].
    rewrite Hop, Htable.
    assert (truthy (JStr op) = true) as -> by (destruct op; [congruence|reflexivity]).
    cbn [negb orb]. rewrite Hcrud.
    unfold serializeResult.
    pose proof (jsonValue_defined result) as Hjson. rewrite Hdef in Hjson.
    destruct (jsonValue result); try discriminate Hjson; reflexivity.
  - apply jsonValue_no_bigint.
  - intros Hbig. apply (unserialized_bigint_is_an_error _ _ _ result); [|exact Hbig].
    rewrite callTool_unfold. unfold callToolWith. cbn.
    unfold bindM, lift. cbn. rewrite Hop. exact Hcrud.
Qed.

Lemma crud_over_rest_serializes_stdio_does_not_witness :
  (exists reads,
     @langflowCrud sample_host _ counting_gateway toLowerCase
       (JObj [("operation", JStr "select"); ("table", JStr "exams")]) tt
     = (res_json
          (JObj [("success", JBool true);
                 ("data", jsonValue (H := sample_host) (JArr [JObj [("count", JBigInt 42)]]));
                 ("message",
                  JStr (toLowerCase "select" +:+ " operation on "
                        +:+ ToString (H := sample_host) (JStr "exams") +:+ " completed successfully"));
                 ("operation", JStr "select");
                 ("table", JStr "exams");
                 ("timestamp", timestamp (H := sample_host) reads)]), tt))
  /\ has_bigint (jsonValue (H := sample_host) (JArr [JObj [("count", JBigInt 42)]])) = false
  /\ (has_bigint (JArr [JObj [("count", JBigInt 42)]]) = true ->
      @onData sample_host _ counting_gateway
        (Some (toolsCallRequest (JNum 3) (JStr "execute_crud")
                 (JObj [("operation", JStr "select"); ("table", JStr "exams")]))) tt
      = ([sendError (JNum 3) (-32603) "Do not know how to serialize a BigInt"], tt)).
Proof.
  apply (crud_over_rest_serializes_stdio_does_not
           (H := sample_host) (H0 := counting_gateway) toLowerCase (JNum 3)
           [("operation", JStr "select"); ("table", JStr "exams")] "select"
           (JArr [JObj [("count", JBigInt 42)]]) tt tt).
  - reflexivity.
  - discriminate.
  - reflexivity.
  - reflexivity.
  - reflexivity.
Defined.



